(** * printing_custom: the custom print order model

    A shallow embedding of [addons/printing_custom/models/custom_order.py]
    (class [PrintingCustomOrder], Odoo model [printing.custom.order]).

    - Python [float] is IEEE-754 binary64: Rocq's primitive floats.
    - Python [int] is [Z]; [str] is [string]; [bytes] is [list byte].
    - A field that may hold [False] is an [option].
    - The table of orders is a [gmap] from record ids to rows; a recordset
      ([self]) is the list of its ids.
    - The [size_fees] dictionary is a [gmap string float]. *)

From Stdlib Require Import ZArith Floats.PrimFloat Uint63 Strings.Byte.
From Stdlib Require Floats.FloatOps Floats.SpecFloat Floats.FloatAxioms.
From stdpp Require Import gmap strings pretty list fin_maps.

Local Open Scope string_scope.

(** ** Python values *)

Module Py.

(** Truthiness of a [Char] value: [False] and the empty string are falsy. *)
Definition truthy_str (v : option string) : bool :=
  match v with
  | Some (String _ _) => true
  | _ => false
  end.

(** Truthiness of a [Binary] value: [False] and [b''] are falsy. *)
Definition truthy_bytes (v : option (list byte)) : bool :=
  match v with
  | Some (_ :: _) => true
  | _ => false
  end.

(** [x or d] where [x] is a string or [False]. *)
Definition str_or (x : option string) (d : string) : string :=
  match x with
  | Some (String a s) => String a s
  | _ => d
  end.

(** [float(z)], as done implicitly by [float * int]: the binary64 number
    nearest to [z], ties to even, as the IEEE rounding of the Standard
    Library defines it.  Where the result is infinite Python raises
    OverflowError instead (see [float_overflows]); no Integer column holds
    such a value. *)
Definition float_of_int (z : Z) : float :=
  FloatOps.SF2Prim
    (SpecFloat.binary_normalize FloatOps.prec FloatOps.emax z 0 false).

(** Does [float(z)] raise OverflowError?  It does from 2^1024 - 2^970 on,
    in absolute value. *)
Definition float_overflows (z : Z) : bool :=
  match SpecFloat.binary_normalize FloatOps.prec FloatOps.emax z 0 false with
  | SpecFloat.S754_infinity _ => true
  | _ => false
  end.

(** [d.get(k, dflt)] where the key [k] is a string or [False]; [False] is
    never a key of a dictionary with string keys. *)
Definition dict_get {V} (d : gmap string V) (k : option string) (dflt : V) : V :=
  match k with
  | Some s => default dflt (d !! s)
  | None => dflt
  end.

End Py.

(** ** Data model: the fields of [PrintingCustomOrder] *)

(** The [state] selection. *)
Inductive order_state := draft | confirmed | production | done | cancel.

(** One stored row.  [base_price] is a related, non-stored field and is
    therefore not a column (see [base_price] below). *)
Record order := {
  name : string;                        (* Char, required, default 'New' *)
  customer_id : option positive;        (* Many2one res.partner *)
  product_id : option positive;         (* Many2one product.product *)
  custom_text : option string;          (* Char *)
  custom_color : option string;         (* Selection, default 'white' *)
  custom_color_code : option string;    (* Char *)
  size : option string;                 (* Selection, default 'medium' *)
  design_file : option (list byte);     (* Binary *)
  design_filename : option string;      (* Char *)
  customization_fee : float;            (* Float, computed, stored *)
  total_price : float;                  (* Float, computed, stored *)
  quantity : Z;                         (* Integer, default 1 *)
  state : order_state;                  (* Selection, default 'draft' *)
  notes : option string                 (* Text *)
}.

(** Field names, as used by [@api.depends] and [@api.constrains]. *)
Inductive field :=
| f_name | f_customer_id | f_product_id | f_custom_text | f_custom_color
| f_custom_color_code | f_size | f_design_file | f_design_filename
| f_base_price | f_customization_fee | f_total_price | f_quantity
| f_state | f_notes.

#[global] Instance field_eq_dec : EqDecision field.
Proof. solve_decision. Defined.

Definition set_customization_fee (o : order) (v : float) : order :=
  {| name := name o; customer_id := customer_id o; product_id := product_id o;
     custom_text := custom_text o; custom_color := custom_color o;
     custom_color_code := custom_color_code o; size := size o;
     design_file := design_file o; design_filename := design_filename o;
     customization_fee := v; total_price := total_price o;
     quantity := quantity o; state := state o; notes := notes o |}.

Definition set_total_price (o : order) (v : float) : order :=
  {| name := name o; customer_id := customer_id o; product_id := product_id o;
     custom_text := custom_text o; custom_color := custom_color o;
     custom_color_code := custom_color_code o; size := size o;
     design_file := design_file o; design_filename := design_filename o;
     customization_fee := customization_fee o; total_price := v;
     quantity := quantity o; state := state o; notes := notes o |}.

(** ** Computed fields *)

(** The dictionary literal of [_compute_customization_fee]. *)
Definition size_fees : gmap string float :=
  {[ "small" := 0.0%float; "medium" := 5.0%float;
     "large" := 10.0%float; "xlarge" := 15.0%float ]}.

(** The body of the loop of [_compute_customization_fee], as a function of
    the three fields it reads. *)
Definition fee (custom_text : option string) (design_file : option (list byte))
    (size : option string) : float :=
  let fee := 0.0%float in
  let fee := if Py.truthy_str custom_text then (fee + 5.0)%float else fee in
  let fee := if Py.truthy_bytes design_file then (fee + 10.0)%float else fee in
  let fee := (fee + Py.dict_get size_fees size 0.0)%float in
  fee.

(** [for order in self: order.<field> = ...]: the rows named by [self] are
    updated one after the other; an id without a row is skipped. *)
Definition for_each (f : order -> order) (self : list positive)
    (orders : gmap positive order) : gmap positive order :=
  foldl (fun m id => alter f id m) orders self.

(** [@api.depends('custom_text', 'design_file', 'size')] *)
Definition _compute_customization_fee (self : list positive)
    (orders : gmap positive order) : gmap positive order :=
  for_each
    (fun order =>
       set_customization_fee order
         (fee (custom_text order) (design_file order) (size order)))
    self orders.

(** [base_price = fields.Float(related='product_id.list_price')]: read
    through the link at each access; an empty link reads as [0.0]. *)
Definition base_price (list_price : positive -> float) (o : order) : float :=
  match product_id o with
  | Some p => list_price p
  | None => 0.0%float
  end.

(** [@api.depends('base_price', 'customization_fee', 'quantity')] *)
Definition _compute_total_price (list_price : positive -> float)
    (self : list positive) (orders : gmap positive order)
    : gmap positive order :=
  for_each
    (fun order =>
       set_total_price order
         ((base_price list_price order + customization_fee order)
          * Py.float_of_int (quantity order))%float)
    self orders.

(** ** The fee as the specification words it *)

(** Size surcharge table: small, medium, large, xlarge; anything else is
    free. *)
Definition spec_size_surcharge (size : option string) : float :=
  match size with
  | Some s =>
      if String.eqb s "small" then 0.0%float
      else if String.eqb s "medium" then 5.0%float
      else if String.eqb s "large" then 10.0%float
      else if String.eqb s "xlarge" then 15.0%float
      else 0.0%float
  | None => 0.0%float
  end.

Definition spec_text_fee (custom_text : option string) : float :=
  match custom_text with
  | Some s => if String.eqb s "" then 0.0%float else 5.0%float
  | None => 0.0%float
  end.

(** A file is present when there is an upload and it is not empty. *)
Definition spec_file_fee (design_file : option (list byte)) : float :=
  match design_file with
  | Some (_ :: _) => 10.0%float
  | Some [] | None => 0.0%float
  end.

(** ** Validation *)

Inductive exn := ValidationError (msg : string).

Inductive result (A : Type) :=
| Ok (a : A)
| Raise (e : exn).
Arguments Ok {A} a.
Arguments Raise {A} e.

(** [for order in self: if <cond>: raise ValidationError(msg)]: the first
    row of [self] that meets the condition raises; an id without a row is
    skipped. *)
Fixpoint check_each (cond : order -> bool) (msg : string)
    (self : list positive) (orders : gmap positive order) : result unit :=
  match self with
  | [] => Ok tt
  | id :: self' =>
      match orders !! id with
      | Some order =>
          if cond order then Raise (ValidationError msg)
          else check_each cond msg self' orders
      | None => check_each cond msg self' orders
      end
  end.

(** [order.quantity <= 0] *)
Definition quantity_not_positive (order : order) : bool :=
  (quantity order <=? 0)%Z.

(** [@api.constrains('quantity')] *)
Definition _check_quantity :=
  check_each quantity_not_positive "Quantity must be greater than 0!".

(** [custom_text and len(custom_text) > 50] *)
Definition text_too_long (custom_text : option string) : bool :=
  Py.truthy_str custom_text
  && match custom_text with
     | Some s => (50 <? String.length s)%nat
     | None => false
     end.

Definition custom_text_too_long (order : order) : bool :=
  text_too_long (custom_text order).

(** [@api.constrains('custom_text')] *)
Definition _check_custom_text_length :=
  check_each custom_text_too_long "Custom text cannot exceed 50 characters!".

(** ** Values passed to [create] and [write] *)

(** The [vals] dictionary, restricted to the assignable fields and to values
    of the field's type.  [None] means that the key is absent. *)
Record vals := {
  v_name : option string;
  v_customer_id : option (option positive);
  v_product_id : option (option positive);
  v_custom_text : option (option string);
  v_custom_color : option (option string);
  v_custom_color_code : option (option string);
  v_size : option (option string);
  v_design_file : option (option (list byte));
  v_design_filename : option (option string);
  v_quantity : option Z;
  v_state : option order_state;
  v_notes : option (option string)
}.

(** [{}] *)
Definition no_vals : vals :=
  {| v_name := None; v_customer_id := None; v_product_id := None;
     v_custom_text := None; v_custom_color := None;
     v_custom_color_code := None; v_size := None; v_design_file := None;
     v_design_filename := None; v_quantity := None; v_state := None;
     v_notes := None |}.

(** [vals['name'] = x] *)
Definition set_v_name (v : vals) (x : string) : vals :=
  {| v_name := Some x; v_customer_id := v_customer_id v;
     v_product_id := v_product_id v; v_custom_text := v_custom_text v;
     v_custom_color := v_custom_color v;
     v_custom_color_code := v_custom_color_code v; v_size := v_size v;
     v_design_file := v_design_file v;
     v_design_filename := v_design_filename v; v_quantity := v_quantity v;
     v_state := v_state v; v_notes := v_notes v |}.

(** [{'state': s}] *)
Definition vals_state (s : order_state) : vals :=
  {| v_name := None; v_customer_id := None; v_product_id := None;
     v_custom_text := None; v_custom_color := None;
     v_custom_color_code := None; v_size := None; v_design_file := None;
     v_design_filename := None; v_quantity := None; v_state := Some s;
     v_notes := None |}.

Definition key_if {A} (o : option A) (f : field) : list field :=
  match o with
  | Some _ => [f]
  | None => []
  end.

(** [vals.keys()] *)
Definition keys (v : vals) : list field :=
  key_if (v_name v) f_name ++ key_if (v_customer_id v) f_customer_id
  ++ key_if (v_product_id v) f_product_id
  ++ key_if (v_custom_text v) f_custom_text
  ++ key_if (v_custom_color v) f_custom_color
  ++ key_if (v_custom_color_code v) f_custom_color_code
  ++ key_if (v_size v) f_size ++ key_if (v_design_file v) f_design_file
  ++ key_if (v_design_filename v) f_design_filename
  ++ key_if (v_quantity v) f_quantity ++ key_if (v_state v) f_state
  ++ key_if (v_notes v) f_notes.

(** [f in vals] *)
Definition has_key (v : vals) (f : field) : Prop :=
  match f with
  | f_name => is_Some (v_name v)
  | f_customer_id => is_Some (v_customer_id v)
  | f_product_id => is_Some (v_product_id v)
  | f_custom_text => is_Some (v_custom_text v)
  | f_custom_color => is_Some (v_custom_color v)
  | f_custom_color_code => is_Some (v_custom_color_code v)
  | f_size => is_Some (v_size v)
  | f_design_file => is_Some (v_design_file v)
  | f_design_filename => is_Some (v_design_filename v)
  | f_quantity => is_Some (v_quantity v)
  | f_state => is_Some (v_state v)
  | f_notes => is_Some (v_notes v)
  | f_base_price | f_customization_fee | f_total_price => False
  end.

(** Assignment of every field named in [vals]; the two computed columns
    are not assignable. *)
Definition assign (v : vals) (o : order) : order :=
  {| name := default (name o) (v_name v);
     customer_id := default (customer_id o) (v_customer_id v);
     product_id := default (product_id o) (v_product_id v);
     custom_text := default (custom_text o) (v_custom_text v);
     custom_color := default (custom_color o) (v_custom_color v);
     custom_color_code := default (custom_color_code o) (v_custom_color_code v);
     size := default (size o) (v_size v);
     design_file := default (design_file o) (v_design_file v);
     design_filename := default (design_filename o) (v_design_filename v);
     customization_fee := customization_fee o;
     total_price := total_price o;
     quantity := default (quantity o) (v_quantity v);
     state := default (state o) (v_state v);
     notes := default (notes o) (v_notes v) |}.

(** The [default=] attributes of the field declarations; a field without
    one starts as [False] (0.0 for a float). *)
Definition defaults : order :=
  {| name := "New"; customer_id := None; product_id := None;
     custom_text := None; custom_color := Some "white";
     custom_color_code := None; size := Some "medium"; design_file := None;
     design_filename := None; customization_fee := 0.0%float;
     total_price := 0.0%float; quantity := 1%Z; state := draft;
     notes := None |}.

Definition default_keys : list field :=
  [f_name; f_custom_color; f_size; f_quantity; f_state].

(** ** The declarations read by the platform *)

(** [@api.constrains(...)] with the method it decorates. *)
Record constraint_method := {
  constrains : list field;
  check : list positive -> gmap positive order -> result unit
}.

Definition quantity_constraint : constraint_method :=
  {| constrains := [f_quantity]; check := _check_quantity |}.

Definition custom_text_constraint : constraint_method :=
  {| constrains := [f_custom_text]; check := _check_custom_text_length |}.

(** The class does not say in which order the platform runs its constraint
    methods: as the class declares them, or sorted by method name. *)
Inductive method_order := declaration_order | name_order.

Definition _constraint_methods (ord : method_order) : list constraint_method :=
  match ord with
  | declaration_order => [quantity_constraint; custom_text_constraint]
  | name_order => [custom_text_constraint; quantity_constraint]
  end.

(** A computed or related field: its name, what [@api.depends] or
    [related=] names, and its compute method. *)
Record computed_field := {
  cf_name : field;
  cf_depends : list field;
  cf_compute : (positive -> float) -> list positive ->
               gmap positive order -> gmap positive order
}.

(** In the order of the class body.  [base_price] is not stored: there is
    nothing to write when the link changes. *)
Definition computed_fields : list computed_field :=
  [ {| cf_name := f_base_price; cf_depends := [f_product_id];
       cf_compute := fun _ _ orders => orders |};
    {| cf_name := f_customization_fee;
       cf_depends := [f_custom_text; f_design_file; f_size];
       cf_compute := fun _ => _compute_customization_fee |};
    {| cf_name := f_total_price;
       cf_depends := [f_base_price; f_customization_fee; f_quantity];
       cf_compute := _compute_total_price |} ].

(** ** The platform: sequence generator, database, write path *)

(** Modelled from the spec: the Sequence Generator, an external collaborator
    with [next(sequence_key) -> string | none].  Any deterministic generator
    is a function of the key and of the number of earlier calls. *)
Record ir_sequence := {
  seq_calls : nat;
  seq_values : string -> nat -> option string
}.

(** [next_by_code(code)]: the value for this call, and the generator after
    it. *)
Definition next_by_code (s : ir_sequence) (code : string)
    : option string * ir_sequence :=
  (seq_values s code (seq_calls s),
   {| seq_calls := S (seq_calls s); seq_values := seq_values s |}).

(** What is durably stored: the orders, the product catalog's list prices
    and the generator. *)
Record database := {
  db_orders : gmap positive order;
  db_list_price : positive -> float;
  db_sequence : ir_sequence
}.

Definition set_orders (db : database) (orders : gmap positive order) : database :=
  {| db_orders := orders; db_list_price := db_list_price db;
     db_sequence := db_sequence db |}.

Definition set_sequence (db : database) (s : ir_sequence) : database :=
  {| db_orders := db_orders db; db_list_price := db_list_price db;
     db_sequence := s |}.

(** A method call: it works on the uncommitted state and either returns or
    raises; the state it leaves behind is kept in both cases. *)
Definition M (A : Type) : Type := database -> result A * database.

Definition ret {A} (a : A) : M A := fun db => (Ok a, db).

Definition bind {A B} (m : M A) (k : A -> M B) : M B :=
  fun db =>
    match m db with
    | (Ok a, db') => k a db'
    | (Raise e, db') => (Raise e, db')
    end.

Notation "'let*' x ':=' m 'in' k" := (bind m (fun x => k))
  (at level 10, x pattern, m at level 100, k at level 200).

(** Does one of the names in [deps] occur in [names]? *)
Definition triggers (deps names : list field) : bool :=
  existsb (fun d => bool_decide (d ∈ names)) deps.

(** Modelled from the spec: "every field write that touches a computed
    field's dependencies triggers synchronous, in-process recomputation
    before the write is considered complete".  The computed fields are
    visited in order; one whose dependencies were modified is recomputed on
    [self] and counts as modified for the fields after it. *)
Fixpoint recompute (cfs : list computed_field) (list_price : positive -> float)
    (modified : list field) (self : list positive)
    (orders : gmap positive order) : gmap positive order :=
  match cfs with
  | [] => orders
  | cf :: cfs' =>
      if triggers (cf_depends cf) modified
      then recompute cfs' list_price (cf_name cf :: modified) self
             (cf_compute cf list_price self orders)
      else recompute cfs' list_price modified self orders
  end.

(** Modelled from the spec: on creation the computed fields are "computed
    from the supplied inputs before the record becomes visible": each compute
    method runs once, in order. *)
Definition compute_all (cfs : list computed_field) (list_price : positive -> float)
    (self : list positive) (orders : gmap positive order) : gmap positive order :=
  foldl (fun m cf => cf_compute cf list_price self m) orders cfs.

(** Modelled from the spec: "validation rules, enforced on every write
    attempt (including creation), each independently checked".  A constraint
    method runs when one of the fields it names is among those written; the
    first one that raises ends the validation. *)
Fixpoint _validate_fields (methods : list constraint_method)
    (field_names : list field) (self : list positive)
    (orders : gmap positive order) : result unit :=
  match methods with
  | [] => Ok tt
  | c :: methods' =>
      if triggers (constrains c) field_names
      then match check c self orders with
           | Ok _ => _validate_fields methods' field_names self orders
           | Raise e => Raise e
           end
      else _validate_fields methods' field_names self orders
  end.

(** The validation as a step of a method call. *)
Definition validate (ord : method_order) (field_names : list field)
    (self : list positive) : M unit :=
  fun db =>
    (_validate_fields (_constraint_methods ord) field_names self (db_orders db),
     db).

(** Modelled from the spec: the inherited [write], missing from the
    repository.  Fields are assigned tentatively, dependent computed fields
    are recomputed, then the constraints of the written fields run. *)
Definition write (ord : method_order) (self : list positive) (v : vals) : M bool :=
  fun db =>
    let assigned := for_each (assign v) self (db_orders db) in
    let recomputed :=
      recompute computed_fields (db_list_price db) (keys v) self assigned in
    (let* _ := validate ord (keys v) self in ret true) (set_orders db recomputed).

(** Modelled from the spec: the inherited [create], missing from the
    repository.  The new row takes the defaults and the given values under a
    fresh id, its computed fields are computed, then the constraints of the
    given and defaulted fields run. *)
Definition base_create (ord : method_order) (v : vals) : M positive :=
  fun db =>
    let id := fresh (dom (db_orders db)) in
    let inserted := <[id := assign v defaults]> (db_orders db) in
    let computed := compute_all computed_fields (db_list_price db) [id] inserted in
    (let* _ := validate ord (keys v ++ default_keys) [id] in ret id)
      (set_orders db computed).

(** Modelled from the spec: the transaction around a call, "a failure must
    leave the record's previously committed state unchanged". *)
Definition transaction {A} (m : M A) : M A :=
  fun db =>
    match m db with
    | (Ok a, db') => (Ok a, db')
    | (Raise e, _) => (Raise e, db)
    end.

(** Modelled from the spec: a price change in the Product Catalog.  The total
    "must be re-run and persisted whenever base_price ... changes", so the
    orders linked to the product are recomputed. *)
Definition set_list_price (pid : positive) (price : float) : M bool :=
  fun db =>
    let list_price := fun p => if decide (p = pid) then price else db_list_price db p in
    let self :=
      elements (dom (filter (fun kv => product_id kv.2 = Some pid) (db_orders db))) in
    (Ok true,
     {| db_orders := recompute computed_fields list_price [f_base_price] self (db_orders db);
        db_list_price := list_price;
        db_sequence := db_sequence db |}).

(** ** Business logic of the class *)

(** [create]: the override that generates the order reference. *)
Definition create (ord : method_order) (v : vals) : M positive :=
  fun db =>
    if String.eqb (default "New" (v_name v)) "New"
    then
      let '(r, s) := next_by_code (db_sequence db) "printing.custom.order" in
      base_create ord (set_v_name v (Py.str_or r "New")) (set_sequence db s)
    else base_create ord v db.

Definition action_confirm (ord : method_order) (self : list positive) : M bool :=
  let* _ := write ord self (vals_state confirmed) in ret true.

Definition action_start_production (ord : method_order) (self : list positive) : M bool :=
  let* _ := write ord self (vals_state production) in ret true.

Definition action_mark_done (ord : method_order) (self : list positive) : M bool :=
  let* _ := write ord self (vals_state done) in ret true.

Definition action_cancel (ord : method_order) (self : list positive) : M bool :=
  let* _ := write ord self (vals_state cancel) in ret true.

Definition action_reset_to_draft (ord : method_order) (self : list positive) : M bool :=
  let* _ := write ord self (vals_state draft) in ret true.

(** The five button actions, with the state each one writes. *)
Inductive transition :=
| confirm | start_production | mark_done | do_cancel | reset_to_draft.

Definition target (t : transition) : order_state :=
  match t with
  | confirm => confirmed
  | start_production => production
  | mark_done => done
  | do_cancel => cancel
  | reset_to_draft => draft
  end.

Definition action (ord : method_order) (t : transition) : list positive -> M bool :=
  match t with
  | confirm => action_confirm ord
  | start_production => action_start_production ord
  | mark_done => action_mark_done ord
  | do_cancel => action_cancel ord
  | reset_to_draft => action_reset_to_draft ord
  end.

(** ** Calls from outside, each in its own transaction *)

Inductive call :=
| Create (v : vals)
| Write (self : list positive) (v : vals)
| Action (t : transition) (self : list positive)
| ProductPrice (pid : positive) (price : float).

Inductive reply := NewId (id : positive) | Done (b : bool).

Definition reply_with {A} (f : A -> reply) (m : M A) : M reply :=
  let* a := m in ret (f a).

Definition execute (ord : method_order) (c : call) : M reply :=
  transaction
    match c with
    | Create v => reply_with NewId (create ord v)
    | Write self v => reply_with Done (write ord self v)
    | Action t self => reply_with Done (action ord t self)
    | ProductPrice pid price => reply_with Done (set_list_price pid price)
    end.

(** The state after a series of calls. *)
Definition run (ord : method_order) (calls : list call) (db : database) : database :=
  foldl (fun db c => (execute ord c db).2) db calls.

(** A database without orders. *)
Definition empty_database (list_price : positive -> float) (s : ir_sequence) : database :=
  {| db_orders := ∅; db_list_price := list_price; db_sequence := s |}.

(** The derived columns of a row agree with what they derive from. *)
Definition consistent_order (list_price : positive -> float) (o : order) : Prop :=
  customization_fee o = fee (custom_text o) (design_file o) (size o)
  /\ total_price o
     = ((base_price list_price o + customization_fee o)
        * Py.float_of_int (quantity o))%float.

Definition consistent (db : database) : Prop :=
  forall id o, db_orders db !! id = Some o -> consistent_order (db_list_price db) o.

(** ** Row-level view of the loops *)

Definition fee_row (o : order) : order :=
  set_customization_fee o (fee (custom_text o) (design_file o) (size o)).

Definition total_row (list_price : positive -> float) (o : order) : order :=
  set_total_price o
    ((base_price list_price o + customization_fee o)
     * Py.float_of_int (quantity o))%float.

(** What [recompute computed_fields] does to one row of [self]. *)
Definition recomputed_row (list_price : positive -> float)
    (modified : list field) (o : order) : order :=
  let m1 := if triggers [f_product_id] modified
            then f_base_price :: modified else modified in
  let fee_modified := triggers [f_custom_text; f_design_file; f_size] m1 in
  let o1 := if fee_modified then fee_row o else o in
  let m2 := if fee_modified then f_customization_fee :: m1 else m1 in
  if triggers [f_base_price; f_customization_fee; f_quantity] m2
  then total_row list_price o1 else o1.

(** What [write] does to one row of [self]. *)
Definition written_row (list_price : positive -> float) (v : vals) (o : order) : order :=
  recomputed_row list_price (keys v) (assign v o).

(** The row that [create] inserts for the values [v]. *)
Definition created_row (list_price : positive -> float) (v : vals) : order :=
  total_row list_price (fee_row (assign v defaults)).

(** The key of the order sequence. *)
Definition sequence_code : string := "printing.custom.order".

(** [vals.get('name', 'New') == 'New'] *)
Definition wants_reference (v : vals) : bool :=
  String.eqb (default "New" (v_name v)) "New".

(** [next_by_code(...) or 'New'] *)
Definition generated_reference (s : ir_sequence) : string :=
  Py.str_or (next_by_code s sequence_code).1 "New".

(** The reference that [create] hands to the inherited [create]. *)
Definition reference (s : ir_sequence) (v : vals) : string :=
  if wants_reference v then generated_reference s else default "New" (v_name v).

(** Some row of the recordset exists. *)
Definition has_row (self : list positive) (orders : gmap positive order) : Prop :=
  exists id, id ∈ self /\ is_Some (orders !! id).

(** Two rows that differ at most in the two computed columns. *)
Definition same_inputs (o o' : order) : Prop :=
  name o' = name o /\ customer_id o' = customer_id o
  /\ product_id o' = product_id o /\ custom_text o' = custom_text o
  /\ custom_color o' = custom_color o
  /\ custom_color_code o' = custom_color_code o /\ size o' = size o
  /\ design_file o' = design_file o
  /\ design_filename o' = design_filename o /\ quantity o' = quantity o
  /\ state o' = state o /\ notes o' = notes o.

(** [order.state = s] and nothing else. *)
Definition set_state (o : order) (s : order_state) : order :=
  {| name := name o; customer_id := customer_id o; product_id := product_id o;
     custom_text := custom_text o; custom_color := custom_color o;
     custom_color_code := custom_color_code o; size := size o;
     design_file := design_file o; design_filename := design_filename o;
     customization_fee := customization_fee o; total_price := total_price o;
     quantity := quantity o; state := s; notes := notes o |}.

(** The two messages. *)
Definition quantity_message : string := "Quantity must be greater than 0!".
Definition custom_text_message : string :=
  "Custom text cannot exceed 50 characters!".

(** A row of [self] breaks the quantity rule and the rule is checked. *)
Definition violates_quantity (names : list field) (self : list positive)
    (orders : gmap positive order) : Prop :=
  f_quantity ∈ names
  /\ exists id o, id ∈ self /\ orders !! id = Some o /\ (quantity o <= 0)%Z.

(** A row of [self] breaks the text rule and the rule is checked. *)
Definition violates_custom_text (names : list field) (self : list positive)
    (orders : gmap positive order) : Prop :=
  f_custom_text ∈ names
  /\ exists id o, id ∈ self /\ orders !! id = Some o
                  /\ text_too_long (custom_text o) = true.

(** The message of the method that runs first. *)
Definition first_message (ord : method_order) : string :=
  match ord with
  | declaration_order => quantity_message
  | name_order => custom_text_message
  end.

(** ** Selections and the validity of a row *)

(** The [size] selection: keys with their labels. *)
Definition size_selection : list (string * string) :=
  [("small", "Small"); ("medium", "Medium"); ("large", "Large");
   ("xlarge", "Extra Large")].

(** The [custom_color] selection. *)
Definition custom_color_selection : list (string * string) :=
  [("white", "White"); ("black", "Black"); ("red", "Red"); ("blue", "Blue");
   ("green", "Green"); ("yellow", "Yellow"); ("custom", "Custom Color")].

(** Every id of the recordset has a row. *)
Definition existing_rows (self : list positive) (orders : gmap positive order) : Prop :=
  forall id, id ∈ self -> is_Some (orders !! id).

(** A row that passes both constraint methods. *)
Definition valid_order (o : order) : Prop :=
  (0 < quantity o)%Z /\ text_too_long (custom_text o) = false.

Definition valid (db : database) : Prop :=
  forall id o, db_orders db !! id = Some o -> valid_order o.

(** ** Sample data *)

(** A generator that has a sequence for the order key: PRINT/0, PRINT/1, ... *)
Definition print_sequence : ir_sequence :=
  {| seq_calls := 0;
     seq_values := fun code n =>
       if String.eqb code "printing.custom.order"
       then Some ("PRINT/" ++ pretty n) else None |}.

(** A generator without any sequence. *)
Definition no_sequence : ir_sequence :=
  {| seq_calls := 0; seq_values := fun _ _ => None |}.

Definition sample_prices : positive -> float := fun _ => 20.0%float.

Definition with_quantity (v : vals) (q : Z) : vals :=
  {| v_name := v_name v; v_customer_id := v_customer_id v;
     v_product_id := v_product_id v; v_custom_text := v_custom_text v;
     v_custom_color := v_custom_color v;
     v_custom_color_code := v_custom_color_code v; v_size := v_size v;
     v_design_file := v_design_file v;
     v_design_filename := v_design_filename v; v_quantity := Some q;
     v_state := v_state v; v_notes := v_notes v |}.


Definition with_links (v : vals) (customer product : positive) : vals :=
  {| v_name := v_name v; v_customer_id := Some (Some customer);
     v_product_id := Some (Some product); v_custom_text := v_custom_text v;
     v_custom_color := v_custom_color v;
     v_custom_color_code := v_custom_color_code v; v_size := v_size v;
     v_design_file := v_design_file v;
     v_design_filename := v_design_filename v; v_quantity := v_quantity v;
     v_state := v_state v; v_notes := v_notes v |}.


(** The database after one plain creation. *)
Definition sample_database : database :=
  (execute declaration_order (Create (with_links no_vals 7 3))
     (empty_database sample_prices print_sequence)).2.

(** * Properties *)

(** ** Loops over a recordset *)

Section ForEach.
Variable f : order -> order.
Hypothesis f_idempotent : forall o, f (f o) = f o.

Lemma for_each_cons id self (orders : gmap positive order) :
  for_each f (id :: self) orders = for_each f self (alter f id orders).
Proof. reflexivity. Qed.

(** A row of [self] has had [f] applied; every other row is as before. *)
Lemma for_each_lookup self (orders : gmap positive order) id :
  for_each f self orders !! id
  = if decide (id ∈ self) then f <$> orders !! id else orders !! id.
Proof.
  revert orders. induction self as [|a self IH]; intros orders.
  - destruct (decide (id ∈ [])) as [H|_]; [by apply elem_of_nil in H | done].
  - rewrite for_each_cons, IH.
    destruct (decide (a = id)) as [->|Hne].
    + rewrite lookup_alter_eq.
      destruct (decide (id ∈ id :: self)) as [_|Hnin];
        [|exfalso; apply Hnin; left].
      destruct (decide (id ∈ self)); [|done].
      destruct (orders !! id); simpl; [by rewrite f_idempotent | done].
    + rewrite lookup_alter_ne by done.
      destruct (decide (id ∈ self)) as [Hin|Hnin];
        destruct (decide (id ∈ a :: self)) as [Hin'|Hnin']; try done.
      * exfalso. apply Hnin'. by right.
      * apply elem_of_cons in Hin' as [?|?]; congruence.
Qed.
End ForEach.

Lemma fee_row_idempotent o : fee_row (fee_row o) = fee_row o.
Proof. reflexivity. Qed.

Lemma total_row_idempotent lp o : total_row lp (total_row lp o) = total_row lp o.
Proof. reflexivity. Qed.

Lemma default_idempotent {A} (x : A) (v : option A) :
  default (default x v) v = default x v.
Proof. by destruct v. Qed.

Lemma assign_idempotent v o : assign v (assign v o) = assign v o.
Proof. unfold assign; simpl. f_equal; apply default_idempotent. Qed.

Lemma compute_customization_fee_lookup self (orders : gmap positive order) id :
  _compute_customization_fee self orders !! id
  = if decide (id ∈ self) then fee_row <$> orders !! id else orders !! id.
Proof. apply (for_each_lookup fee_row fee_row_idempotent). Qed.

Lemma compute_total_price_lookup lp self (orders : gmap positive order) id :
  _compute_total_price lp self orders !! id
  = if decide (id ∈ self) then total_row lp <$> orders !! id else orders !! id.
Proof. apply (for_each_lookup (total_row lp) (total_row_idempotent lp)). Qed.

(** ** The customization fee *)

Lemma size_fees_get (s : option string) :
  Py.dict_get size_fees s 0.0%float = spec_size_surcharge s.
Proof.
  destruct s as [s|]; [|reflexivity].
  unfold Py.dict_get, spec_size_surcharge, size_fees.
  destruct (String.eqb_spec s "small") as [->|H1]; [reflexivity|].
  rewrite lookup_insert_ne by congruence.
  destruct (String.eqb_spec s "medium") as [->|H2]; [reflexivity|].
  rewrite lookup_insert_ne by congruence.
  destruct (String.eqb_spec s "large") as [->|H3]; [reflexivity|].
  rewrite lookup_insert_ne by congruence.
  destruct (String.eqb_spec s "xlarge") as [->|H4]; [reflexivity|].
  rewrite lookup_singleton_ne by congruence.
  reflexivity.
Qed.

Lemma spec_size_surcharge_cases (s : option string) :
  spec_size_surcharge s = 0.0%float \/ spec_size_surcharge s = 5.0%float \/
  spec_size_surcharge s = 10.0%float \/ spec_size_surcharge s = 15.0%float.
Proof.
  destruct s as [s|]; [|by left].
  unfold spec_size_surcharge.
  repeat (case_match; [tauto|]). tauto.
Qed.

Lemma fee_is_sum t d s :
  fee t d s = (spec_text_fee t + spec_file_fee d + spec_size_surcharge s)%float
  /\ fee t d s = (spec_size_surcharge s + (spec_file_fee d + spec_text_fee t))%float.
Proof.
  unfold fee. rewrite size_fees_get.
  assert (Hd : spec_file_fee d = if Py.truthy_bytes d then 10.0%float else 0.0%float).
  { destruct d as [[|b d]|]; reflexivity. }
  assert (Ht : spec_text_fee t = if Py.truthy_str t then 5.0%float else 0.0%float).
  { destruct t as [[|a t]|]; reflexivity. }
  rewrite Hd, Ht.
  destruct (spec_size_surcharge_cases s) as [-> | [-> | [-> | ->]]];
    destruct (Py.truthy_str t), (Py.truthy_bytes d); split; reflexivity.
Qed.

(** C1.  The customization fee computed in the loop of
    [_compute_customization_fee] is a function of (custom_text, design_file,
    size) alone and equals the sum of 5.0 for a non-empty text, 10.0 for a
    design file and the size surcharge (0, 5, 10 and 15 for small, medium,
    large and xlarge, 0 for any other value); summing the three contributions
    in the opposite order gives the same value; the method stores that value
    in every row of [self] and changes nothing else; and the three sample
    values of the specification are 0.0, 5.0 and 30.0. *)
Theorem C1_customization_fee_is_sum :
  (forall (t : option string) (d : option (list byte)) (s : option string),
      fee t d s = (spec_text_fee t + spec_file_fee d + spec_size_surcharge s)%float
      /\ fee t d s = (spec_size_surcharge s + (spec_file_fee d + spec_text_fee t))%float)
  /\ (forall (self : list positive) (orders : gmap positive order) (id : positive),
         _compute_customization_fee self orders !! id
         = if decide (id ∈ self)
           then (fun o => set_customization_fee o
                            (fee (custom_text o) (design_file o) (size o)))
                <$> orders !! id
           else orders !! id)
  /\ fee (Some "") None (Some "small") = 0.0%float
  /\ fee (Some "Hi") None (Some "small") = 5.0%float
  /\ (forall b bs, fee (Some "Hi") (Some (b :: bs)) (Some "xlarge") = 30.0%float).
Proof.
  split; [exact fee_is_sum|].
  split; [exact compute_customization_fee_lookup|].
  repeat split; reflexivity.
Qed.

(** ** Field names: keys and triggers *)

Lemma triggers_true deps names :
  triggers deps names = true <-> exists d, d ∈ deps /\ d ∈ names.
Proof.
  unfold triggers. rewrite existsb_exists. split.
  - intros (d & Hd & Hn). exists d. split; [by apply list_elem_of_In|].
    by apply bool_decide_eq_true in Hn.
  - intros (d & Hd & Hn). exists d. split; [by apply list_elem_of_In|].
    by apply bool_decide_eq_true.
Qed.

Lemma triggers_false deps names :
  triggers deps names = false <-> forall d, d ∈ deps -> d ∉ names.
Proof.
  rewrite <- not_true_iff_false, triggers_true. split.
  - intros H d Hd Hn. apply H. eauto.
  - intros H (d & Hd & Hn). by apply (H d).
Qed.

Lemma elem_of_key_if {A} (o : option A) (g f : field) :
  f ∈ key_if o g <-> f = g /\ is_Some o.
Proof.
  destruct o; simpl.
  - rewrite list_elem_of_singleton. split; [intros ->; eauto | tauto].
  - rewrite elem_of_nil. split; [tauto | intros [_ []]; discriminate].
Qed.

Lemma elem_of_keys v f : f ∈ keys v <-> has_key v f.
Proof.
  unfold keys. rewrite !elem_of_app, !elem_of_key_if.
  destruct f; simpl; split; intros H; try tauto;
    repeat (destruct H as [H|H]; [by destruct H|]); by destruct H.
Qed.

Lemma triggers_one f names : triggers [f] names = bool_decide (f ∈ names).
Proof. simpl. apply orb_false_r. Qed.

(** ** The total price *)



(** ** The constraint methods *)

Lemma check_each_ok cond msg self (orders : gmap positive order) :
  check_each cond msg self orders = Ok tt
  <-> forall id o, id ∈ self -> orders !! id = Some o -> cond o = false.
Proof.
  induction self as [|a self IH]; simpl.
  - split; [|done]. intros _ id o Hin. by apply elem_of_nil in Hin.
  - destruct (orders !! a) as [oa|] eqn:Ha.
    + destruct (cond oa) eqn:Hc.
      * split; [discriminate|]. intros H.
        specialize (H a oa (list_elem_of_here _ _) Ha). congruence.
      * rewrite IH. split.
        -- intros H id o [->|Hin]%elem_of_cons Ho; [congruence | eauto].
        -- intros H id o Hin. apply H. by right.
    + rewrite IH. split.
      * intros H id o [->|Hin]%elem_of_cons Ho; [congruence | eauto].
      * intros H id o Hin. apply H. by right.
Qed.

Lemma check_each_cases cond msg self (orders : gmap positive order) :
  check_each cond msg self orders = Ok tt
  \/ check_each cond msg self orders = Raise (ValidationError msg).
Proof.
  induction self as [|a self IH]; simpl; [by left|].
  destruct (orders !! a) as [oa|]; [|done].
  destruct (cond oa); [by right | done].
Qed.

Lemma check_each_raise cond msg self (orders : gmap positive order) :
  check_each cond msg self orders = Raise (ValidationError msg)
  <-> exists id o, id ∈ self /\ orders !! id = Some o /\ cond o = true.
Proof.
  split.
  - intros Hr. induction self as [|a self IH]; simpl in Hr; [discriminate|].
    destruct (orders !! a) as [oa|] eqn:Ha.
    + destruct (cond oa) eqn:Hc.
      * exists a, oa. split; [left | done].
      * destruct (IH Hr) as (id & o & Hin & Ho & Hco).
        exists id, o. split; [by right | done].
    + destruct (IH Hr) as (id & o & Hin & Ho & Hco).
      exists id, o. split; [by right | done].
  - intros (id & o & Hin & Ho & Hc).
    destruct (check_each_cases cond msg self orders) as [Hok|Hr]; [|done].
    rewrite check_each_ok in Hok. specialize (Hok id o Hin Ho). congruence.
Qed.

(** What the validation of the written fields returns, whatever the order
    in which the two methods run. *)
Lemma validate_fields_cases ord names self (orders : gmap positive order) :
  let r := _validate_fields (_constraint_methods ord) names self orders in
  let q := violates_quantity names self orders in
  let t := violates_custom_text names self orders in
  (~ q /\ ~ t /\ r = Ok tt)
  \/ (q /\ ~ t /\ r = Raise (ValidationError quantity_message))
  \/ (~ q /\ t /\ r = Raise (ValidationError custom_text_message))
  \/ (q /\ t /\ r = Raise (ValidationError (first_message ord))).
Proof.
  intros r q t.
  assert (Hq : q \/ ~ q /\ (f_quantity ∈ names -> _check_quantity self orders = Ok tt)).
  { destruct (decide (f_quantity ∈ names)) as [Hin|Hnin]; [|right; split; [by intros []|done]].
    destruct (check_each_cases quantity_not_positive quantity_message self orders)
      as [Hok|Hr].
    - right. split; [|done]. intros (_ & id & o & Hid & Ho & Hle).
      rewrite check_each_ok in Hok. specialize (Hok id o Hid Ho).
      unfold quantity_not_positive in Hok. lia.
    - left. split; [done|]. apply check_each_raise in Hr as (id & o & ? & ? & Hc).
      exists id, o. unfold quantity_not_positive in Hc. repeat split; [done..|lia]. }
  assert (Ht : t \/ ~ t /\ (f_custom_text ∈ names -> _check_custom_text_length self orders = Ok tt)).
  { destruct (decide (f_custom_text ∈ names)) as [Hin|Hnin]; [|right; split; [by intros []|done]].
    destruct (check_each_cases custom_text_too_long custom_text_message self orders)
      as [Hok|Hr].
    - right. split; [|done]. intros (_ & id & o & Hid & Ho & Hle).
      rewrite check_each_ok in Hok. specialize (Hok id o Hid Ho).
      unfold custom_text_too_long in Hok. congruence.
    - left. split; [done|]. apply check_each_raise in Hr as (id & o & ? & ? & Hc).
      by exists id, o. }
  assert (Hq' : q -> f_quantity ∈ names
                     /\ _check_quantity self orders = Raise (ValidationError quantity_message)).
  { intros (Hin & id & o & Hid & Ho & Hle). split; [done|].
    apply check_each_raise. exists id, o. unfold quantity_not_positive.
    repeat split; [done..|]. by apply Z.leb_le. }
  assert (Ht' : t -> f_custom_text ∈ names
                     /\ _check_custom_text_length self orders
                        = Raise (ValidationError custom_text_message)).
  { intros (Hin & id & o & Hid & Ho & Hc). split; [done|].
    apply check_each_raise. by exists id, o. }
  subst r.
  destruct ord;
    cbn [_constraint_methods _validate_fields constrains check
         quantity_constraint custom_text_constraint first_message];
    rewrite !triggers_one;
    (destruct Hq as [Hq|[Hnq Hqok]];
     [ destruct (Hq' Hq) as [Hqin Hqr];
       rewrite (bool_decide_eq_true_2 _ Hqin), Hqr
     | destruct (bool_decide (f_quantity ∈ names)) eqn:Eq;
       [ apply bool_decide_eq_true in Eq; rewrite (Hqok Eq) | ] ]);
    (destruct Ht as [Ht|[Hnt Htok]];
     [ destruct (Ht' Ht) as [Htin Htr];
       rewrite ?(bool_decide_eq_true_2 _ Htin), ?Htr
     | destruct (bool_decide (f_custom_text ∈ names)) eqn:Et;
       [ apply bool_decide_eq_true in Et; rewrite ?(Htok Et) | ] ]);
    tauto.
Qed.

(** ** Recomputation and the write path *)

Lemma recompute_lookup lp modified self (orders : gmap positive order) id :
  recompute computed_fields lp modified self orders !! id
  = if decide (id ∈ self)
    then recomputed_row lp modified <$> orders !! id
    else orders !! id.
Proof.
  unfold recomputed_row.
  cbn [recompute computed_fields cf_depends cf_name cf_compute].
  repeat match goal with
         | |- context [triggers ?a ?b] => destruct (triggers a b)
         end;
    rewrite ?compute_total_price_lookup, ?compute_customization_fee_lookup;
    destruct (decide (id ∈ self)); try done;
    destruct (orders !! id); done.
Qed.

Lemma compute_all_lookup lp self (orders : gmap positive order) id :
  compute_all computed_fields lp self orders !! id
  = if decide (id ∈ self)
    then (fun o => total_row lp (fee_row o)) <$> orders !! id
    else orders !! id.
Proof.
  cbn [compute_all computed_fields foldl cf_compute].
  rewrite compute_total_price_lookup, compute_customization_fee_lookup.
  destruct (decide (id ∈ self)); [|done].
  by destruct (orders !! id).
Qed.

Lemma recomputed_row_same_inputs lp modified o :
  same_inputs o (recomputed_row lp modified o).
Proof.
  unfold recomputed_row, same_inputs.
  repeat match goal with
         | |- context [triggers ?a ?b] => destruct (triggers a b)
         end; repeat split; reflexivity.
Qed.

Lemma write_unfold ord self v db :
  let db' :=
    set_orders db
      (recompute computed_fields (db_list_price db) (keys v) self
         (for_each (assign v) self (db_orders db))) in
  write ord self v db
  = match _validate_fields (_constraint_methods ord) (keys v) self (db_orders db') with
    | Ok _ => (Ok true, db')
    | Raise e => (Raise e, db')
    end.
Proof.
  unfold write, bind, validate, ret. simpl.
  by destruct (_validate_fields _ _ _ _).
Qed.

Lemma written_lookup lp self v (orders : gmap positive order) id :
  recompute computed_fields lp (keys v) self (for_each (assign v) self orders) !! id
  = if decide (id ∈ self) then written_row lp v <$> orders !! id else orders !! id.
Proof.
  rewrite recompute_lookup, (for_each_lookup _ (assign_idempotent v)).
  destruct (decide (id ∈ self)); [|done].
  by destruct (orders !! id).
Qed.

Lemma write_orders_lookup ord self v db id :
  db_orders (write ord self v db).2 !! id
  = if decide (id ∈ self)
    then written_row (db_list_price db) v <$> db_orders db !! id
    else db_orders db !! id.
Proof.
  rewrite write_unfold. cbv zeta.
  destruct (_validate_fields _ _ _ _); simpl; apply written_lookup.
Qed.

Lemma write_keeps_catalog ord self v db :
  db_list_price (write ord self v db).2 = db_list_price db
  /\ db_sequence (write ord self v db).2 = db_sequence db.
Proof.
  rewrite write_unfold. cbv zeta.
  by destruct (_validate_fields _ _ _ _).
Qed.

(** ** The five transitions *)

Lemma action_unfold ord t self db :
  action ord t self db
  = (Ok true,
     set_orders db (for_each (fun o => set_state o (target t)) self (db_orders db))).
Proof. destruct ord, t; reflexivity. Qed.

Lemma set_state_idempotent s o : set_state (set_state o s) s = set_state o s.
Proof. reflexivity. Qed.

Lemma action_orders_lookup ord t self db id :
  db_orders (action ord t self db).2 !! id
  = if decide (id ∈ self)
    then (fun o => set_state o (target t)) <$> db_orders db !! id
    else db_orders db !! id.
Proof.
  rewrite action_unfold. simpl.
  apply (for_each_lookup (fun o => set_state o (target t))).
  intros o. apply set_state_idempotent.
Qed.

Lemma execute_action ord t self db :
  execute ord (Action t self) db = (Ok (Done true), (action ord t self db).2).
Proof.
  unfold execute, transaction, reply_with, bind.
  rewrite action_unfold. reflexivity.
Qed.

(** C3.  Each of the five transitions succeeds on every recordset and in
    every database, without any guard: it returns [True], and afterwards
    every row of the recordset is in the target state of the transition
    (confirmed, production, done, cancel, draft), whatever its state was.
    Hence every state can be reached from every state in one call. *)
Theorem C3_transitions_unguarded :
  (forall ord t self db,
      (action ord t self db).1 = Ok true
      /\ (execute ord (Action t self) db).1 = Ok (Done true)
      /\ forall id,
          state <$> db_orders (execute ord (Action t self) db).2 !! id
          = if decide (id ∈ self)
            then (fun _ => target t) <$> db_orders db !! id
            else state <$> db_orders db !! id)
  /\ (forall ord,
         action ord confirm = action_confirm ord
         /\ action ord start_production = action_start_production ord
         /\ action ord mark_done = action_mark_done ord
         /\ action ord do_cancel = action_cancel ord
         /\ action ord reset_to_draft = action_reset_to_draft ord)
  /\ (target confirm = confirmed /\ target start_production = production
      /\ target mark_done = done /\ target do_cancel = cancel
      /\ target reset_to_draft = draft)
  /\ (forall ord db id (s' : order_state),
         exists t,
           (execute ord (Action t [id]) db).1 = Ok (Done true)
           /\ state <$> db_orders (execute ord (Action t [id]) db).2 !! id
              = (fun _ => s') <$> db_orders db !! id).
Proof.
  assert (Hstate : forall ord t self db id,
             state <$> db_orders (execute ord (Action t self) db).2 !! id
             = if decide (id ∈ self)
               then (fun _ => target t) <$> db_orders db !! id
               else state <$> db_orders db !! id).
  { intros. rewrite execute_action. cbn [snd].
    rewrite action_orders_lookup.
    destruct (decide (id ∈ self)); [|done].
    by destruct (db_orders db !! id). }
  split; [|split; [|split]].
  - intros. split; [by rewrite action_unfold|].
    split; [by rewrite execute_action | apply Hstate].
  - intros. repeat split.
  - repeat split.
  - intros ord db id s'.
    assert (Ht : exists t, target t = s').
    { destruct s';
        [ by exists reset_to_draft | by exists confirm
        | by exists start_production | by exists mark_done | by exists do_cancel ]. }
    destruct Ht as [t <-]. exists t.
    split; [by rewrite execute_action|].
    rewrite Hstate.
    destruct (decide (id ∈ [id])) as [_|Hn]; [done|].
    exfalso. apply Hn. left.
Qed.

(** C10.  A transition changes the state column of the rows of its
    recordset and nothing else: every other column of those rows, the rows
    outside the recordset, the catalog and the generator are as before.  In
    particular the stored fee and total are untouched, and a row whose fee
    and total agreed with their inputs still agrees. *)
Theorem C10_transitions_frame :
  (forall ord t self db,
      (forall id,
          db_orders (action ord t self db).2 !! id
          = if decide (id ∈ self)
            then (fun o => set_state o (target t)) <$> db_orders db !! id
            else db_orders db !! id)
      /\ db_list_price (action ord t self db).2 = db_list_price db
      /\ db_sequence (action ord t self db).2 = db_sequence db
      /\ (execute ord (Action t self) db).2 = (action ord t self db).2)
  /\ (forall o s,
         name (set_state o s) = name o
         /\ customer_id (set_state o s) = customer_id o
         /\ product_id (set_state o s) = product_id o
         /\ custom_text (set_state o s) = custom_text o
         /\ custom_color (set_state o s) = custom_color o
         /\ custom_color_code (set_state o s) = custom_color_code o
         /\ size (set_state o s) = size o
         /\ design_file (set_state o s) = design_file o
         /\ design_filename (set_state o s) = design_filename o
         /\ customization_fee (set_state o s) = customization_fee o
         /\ total_price (set_state o s) = total_price o
         /\ quantity (set_state o s) = quantity o
         /\ notes (set_state o s) = notes o
         /\ state (set_state o s) = s)
  /\ (forall list_price o s,
         consistent_order list_price (set_state o s)
         <-> consistent_order list_price o).
Proof.
  split; [|split].
  - intros. split; [intros; apply action_orders_lookup|].
    rewrite execute_action, action_unfold. done.
  - intros. repeat split.
  - intros. reflexivity.
Qed.

(** ** Creation *)

Lemma compute_all_insert lp id r (orders : gmap positive order) :
  compute_all computed_fields lp [id] (<[id := r]> orders)
  = <[id := total_row lp (fee_row r)]> orders.
Proof.
  apply map_eq. intros i. rewrite compute_all_lookup.
  destruct (decide (i = id)) as [->|Hne].
  - rewrite !lookup_insert_eq.
    destruct (decide (id ∈ [id])) as [_|Hn]; [done|].
    exfalso. apply Hn. left.
  - rewrite !lookup_insert_ne by done.
    destruct (decide (i ∈ [id])) as [Hin|_]; [|done].
    apply list_elem_of_singleton in Hin. congruence.
Qed.

Lemma base_create_unfold ord v db :
  let id := fresh (dom (db_orders db)) in
  let db' := set_orders db (<[id := created_row (db_list_price db) v]> (db_orders db)) in
  base_create ord v db
  = match _validate_fields (_constraint_methods ord) (keys v ++ default_keys)
            [id] (db_orders db') with
    | Ok _ => (Ok id, db')
    | Raise e => (Raise e, db')
    end.
Proof.
  unfold base_create, bind, validate, ret. cbv zeta.
  rewrite compute_all_insert. simpl.
  by destruct (_validate_fields _ _ _ _).
Qed.

Lemma create_unfold ord v db :
  create ord v db
  = if String.eqb (default "New" (v_name v)) "New"
    then base_create ord
           (set_v_name v
              (Py.str_or (next_by_code (db_sequence db) sequence_code).1 "New"))
           (set_sequence db (next_by_code (db_sequence db) sequence_code).2)
    else base_create ord v db.
Proof. reflexivity. Qed.

(** The new id is not the id of an existing order. *)
Lemma fresh_id_is_new db : db_orders db !! fresh (dom (db_orders db)) = None.
Proof. apply not_elem_of_dom, is_fresh. Qed.

(** The checks on a single new row. *)
Lemma violates_quantity_new names id o (orders : gmap positive order) :
  f_quantity ∈ names ->
  violates_quantity names [id] (<[id := o]> orders) <-> (quantity o <= 0)%Z.
Proof.
  intros Hin. unfold violates_quantity. split.
  - intros (_ & i & o' & Hi & Ho & Hle).
    apply list_elem_of_singleton in Hi as ->.
    rewrite lookup_insert_eq in Ho. congruence.
  - intros Hle. split; [done|]. exists id, o.
    split; [left|]. by rewrite lookup_insert_eq.
Qed.

Lemma violates_custom_text_new names id o (orders : gmap positive order) :
  (f_custom_text ∈ names \/ text_too_long (custom_text o) = false) ->
  violates_custom_text names [id] (<[id := o]> orders)
  <-> text_too_long (custom_text o) = true.
Proof.
  intros Hin. unfold violates_custom_text. split.
  - intros (_ & i & o' & Hi & Ho & Hc).
    apply list_elem_of_singleton in Hi as ->.
    rewrite lookup_insert_eq in Ho. congruence.
  - intros Hc. split; [destruct Hin as [?|Hf]; [done | rewrite Hc in Hf; discriminate]|]. exists id, o.
    split; [left|]. by rewrite lookup_insert_eq.
Qed.


(** Validation of a creation: the quantity given (1 by default) and the text
    given decide. *)
Lemma base_create_cases ord v db :
  let id := fresh (dom (db_orders db)) in
  let db' := set_orders db (<[id := created_row (db_list_price db) v]> (db_orders db)) in
  let q := (default 1 (v_quantity v) <= 0)%Z in
  let t := text_too_long (default None (v_custom_text v)) = true in
  (~ q /\ ~ t /\ base_create ord v db = (Ok id, db'))
  \/ (q /\ ~ t /\ base_create ord v db = (Raise (ValidationError quantity_message), db'))
  \/ (~ q /\ t /\ base_create ord v db = (Raise (ValidationError custom_text_message), db'))
  \/ (q /\ t /\ base_create ord v db = (Raise (ValidationError (first_message ord)), db')).
Proof.
  intros id db' q t. rewrite base_create_unfold. fold id. fold db'.
  assert (Hq : violates_quantity (keys v ++ default_keys) [id] (db_orders db') <-> q).
  { apply violates_quantity_new. apply elem_of_app. right.
    unfold default_keys. set_solver. }
  assert (Ht : violates_custom_text (keys v ++ default_keys) [id] (db_orders db') <-> t).
  { apply violates_custom_text_new.
    destruct (v_custom_text v) as [x|] eqn:Hv;
      [left | right; cbn; by rewrite Hv].
    apply elem_of_app. left. apply elem_of_keys. simpl. by rewrite Hv. }
  destruct (validate_fields_cases ord (keys v ++ default_keys) [id] (db_orders db'))
    as [(H1 & H2 & ->) | [(H1 & H2 & ->) | [(H1 & H2 & ->) | (H1 & H2 & ->)]]];
    rewrite Hq in H1; rewrite Ht in H2; tauto.
Qed.

Lemma create_as_base_create ord v db :
  create ord v db
  = base_create ord (set_v_name v (reference (db_sequence db) v))
      (if wants_reference v
       then set_sequence db (next_by_code (db_sequence db) sequence_code).2
       else db).
Proof.
  rewrite create_unfold. unfold reference, wants_reference.
  destruct (String.eqb (default "New" (v_name v)) "New") eqn:E; [reflexivity|].
  destruct v as [[n|] ? ? ? ? ? ? ? ? ? ? ?]; simpl in *; [reflexivity|].
  discriminate.
Qed.

(** The outcome of [create]: the row it inserts, and what validation says. *)
Lemma create_cases ord v db :
  let id := fresh (dom (db_orders db)) in
  let row := created_row (db_list_price db) (set_v_name v (reference (db_sequence db) v)) in
  let db' :=
    {| db_orders := <[id := row]> (db_orders db);
       db_list_price := db_list_price db;
       db_sequence := if wants_reference v
                      then (next_by_code (db_sequence db) sequence_code).2
                      else db_sequence db |} in
  let q := (default 1 (v_quantity v) <= 0)%Z in
  let t := text_too_long (default None (v_custom_text v)) = true in
  (~ q /\ ~ t /\ create ord v db = (Ok id, db'))
  \/ (q /\ ~ t /\ create ord v db = (Raise (ValidationError quantity_message), db'))
  \/ (~ q /\ t /\ create ord v db = (Raise (ValidationError custom_text_message), db'))
  \/ (q /\ t /\ create ord v db = (Raise (ValidationError (first_message ord)), db')).
Proof.
  intros id row db' q t. rewrite create_as_base_create.
  pose proof (base_create_cases ord (set_v_name v (reference (db_sequence db) v))
                (if wants_reference v
                 then set_sequence db (next_by_code (db_sequence db) sequence_code).2
                 else db)) as H.
  cbv zeta in H.
  assert (Hdb : set_orders
                  (if wants_reference v
                   then set_sequence db (next_by_code (db_sequence db) sequence_code).2
                   else db)
                  (<[fresh (dom (db_orders
                       (if wants_reference v
                        then set_sequence db (next_by_code (db_sequence db) sequence_code).2
                        else db)))
                     := created_row
                          (db_list_price
                             (if wants_reference v
                              then set_sequence db (next_by_code (db_sequence db) sequence_code).2
                              else db))
                          (set_v_name v (reference (db_sequence db) v))]>
                     (db_orders
                        (if wants_reference v
                         then set_sequence db (next_by_code (db_sequence db) sequence_code).2
                         else db)))
                = db').
  { subst db' row id. by destruct (wants_reference v). }
  rewrite Hdb in H.
  assert (Hid : fresh (dom (db_orders
                  (if wants_reference v
                   then set_sequence db (next_by_code (db_sequence db) sequence_code).2
                   else db))) = id).
  { subst id. by destruct (wants_reference v). }
  rewrite Hid in H. exact H.
Qed.

Lemma execute_create ord v db :
  execute ord (Create v) db
  = match create ord v db with
    | (Ok id, db') => (Ok (NewId id), db')
    | (Raise e, _) => (Raise e, db)
    end.
Proof.
  unfold execute, transaction, reply_with, bind, ret.
  by destruct (create ord v db) as [[id|e] db'].
Qed.

Lemma execute_write ord self v db :
  execute ord (Write self v) db
  = match write ord self v db with
    | (Ok b, db') => (Ok (Done b), db')
    | (Raise e, _) => (Raise e, db)
    end.
Proof.
  unfold execute, transaction, reply_with, bind, ret.
  by destruct (write ord self v db) as [[b|e] db'].
Qed.

Lemma written_row_fields lp v o :
  name (written_row lp v o) = default (name o) (v_name v)
  /\ quantity (written_row lp v o) = default (quantity o) (v_quantity v)
  /\ custom_text (written_row lp v o) = default (custom_text o) (v_custom_text v)
  /\ state (written_row lp v o) = default (state o) (v_state v).
Proof.
  unfold written_row, recomputed_row.
  repeat match goal with
         | |- context [triggers ?a ?b] => destruct (triggers a b)
         end; repeat split; reflexivity.
Qed.

(** The outcome of [write]: the rows it leaves, and what validation says. *)
Lemma write_cases ord self v db :
  let db' :=
    set_orders db
      (recompute computed_fields (db_list_price db) (keys v) self
         (for_each (assign v) self (db_orders db))) in
  let q := has_row self (db_orders db)
           /\ exists x, v_quantity v = Some x /\ (x <= 0)%Z in
  let t := has_row self (db_orders db)
           /\ exists x, v_custom_text v = Some x /\ text_too_long x = true in
  (~ q /\ ~ t /\ write ord self v db = (Ok true, db'))
  \/ (q /\ ~ t /\ write ord self v db = (Raise (ValidationError quantity_message), db'))
  \/ (~ q /\ t /\ write ord self v db = (Raise (ValidationError custom_text_message), db'))
  \/ (q /\ t /\ write ord self v db = (Raise (ValidationError (first_message ord)), db')).
Proof.
  intros db' q t. rewrite write_unfold. fold db'.
  assert (Hrow : forall id o', id ∈ self -> db_orders db' !! id = Some o' ->
                   exists o, db_orders db !! id = Some o
                             /\ o' = written_row (db_list_price db) v o).
  { intros id o' Hin Ho'. subst db'. cbn [db_orders set_orders] in Ho'.
    rewrite written_lookup in Ho'.
    destruct (decide (id ∈ self)); [|done].
    destruct (db_orders db !! id) as [o|]; [|done].
    exists o. split; [done|]. simpl in Ho'. congruence. }
  assert (Hrow' : forall id o, id ∈ self -> db_orders db !! id = Some o ->
                    db_orders db' !! id = Some (written_row (db_list_price db) v o)).
  { intros id o Hin Ho. subst db'. cbn [db_orders set_orders].
    rewrite written_lookup, Ho.
    by destruct (decide (id ∈ self)). }
  assert (Hq : violates_quantity (keys v) self (db_orders db') <-> q).
  { unfold violates_quantity. rewrite elem_of_keys. simpl. split.
    - intros ([x Hx] & id & o' & Hin & Ho' & Hle).
      destruct (Hrow id o' Hin Ho') as (o & Ho & ->).
      split; [by exists id; eauto|]. exists x. split; [done|].
      destruct (written_row_fields (db_list_price db) v o) as (_ & Hqty & _).
      rewrite Hqty, Hx in Hle. done.
    - intros ((id & Hin & [o Ho]) & x & Hx & Hle).
      split; [by eauto|]. exists id, (written_row (db_list_price db) v o).
      split; [done|]. split; [by apply Hrow'|].
      destruct (written_row_fields (db_list_price db) v o) as (_ & Hqty & _).
      by rewrite Hqty, Hx. }
  assert (Ht : violates_custom_text (keys v) self (db_orders db') <-> t).
  { unfold violates_custom_text. rewrite elem_of_keys. simpl. split.
    - intros ([x Hx] & id & o' & Hin & Ho' & Hc).
      destruct (Hrow id o' Hin Ho') as (o & Ho & ->).
      split; [by exists id; eauto|]. exists x. split; [done|].
      destruct (written_row_fields (db_list_price db) v o) as (_ & _ & Htxt & _).
      rewrite Htxt, Hx in Hc. done.
    - intros ((id & Hin & [o Ho]) & x & Hx & Hc).
      split; [by eauto|]. exists id, (written_row (db_list_price db) v o).
      split; [done|]. split; [by apply Hrow'|].
      destruct (written_row_fields (db_list_price db) v o) as (_ & _ & Htxt & _).
      by rewrite Htxt, Hx. }
  destruct (validate_fields_cases ord (keys v) self (db_orders db'))
    as [(H1 & H2 & ->) | [(H1 & H2 & ->) | [(H1 & H2 & ->) | (H1 & H2 & ->)]]];
    rewrite Hq in H1; rewrite Ht in H2; tauto.
Qed.

Lemma execute_write_cases ord self v db :
  let db' :=
    set_orders db
      (recompute computed_fields (db_list_price db) (keys v) self
         (for_each (assign v) self (db_orders db))) in
  let q := has_row self (db_orders db)
           /\ exists x, v_quantity v = Some x /\ (x <= 0)%Z in
  let t := has_row self (db_orders db)
           /\ exists x, v_custom_text v = Some x /\ text_too_long x = true in
  (~ q /\ ~ t /\ execute ord (Write self v) db = (Ok (Done true), db'))
  \/ (q /\ ~ t
      /\ execute ord (Write self v) db = (Raise (ValidationError quantity_message), db))
  \/ (~ q /\ t
      /\ execute ord (Write self v) db = (Raise (ValidationError custom_text_message), db))
  \/ (q /\ t
      /\ execute ord (Write self v) db = (Raise (ValidationError (first_message ord)), db)).
Proof.
  intros db' q t. subst db' q t. rewrite execute_write.
  destruct (write_cases ord self v db)
    as [(H1 & H2 & ->) | [(H1 & H2 & ->) | [(H1 & H2 & ->) | (H1 & H2 & ->)]]];
    cbv beta iota; tauto.
Qed.

Lemma execute_create_cases ord v db :
  let id := fresh (dom (db_orders db)) in
  let row := created_row (db_list_price db) (set_v_name v (reference (db_sequence db) v)) in
  let db' :=
    {| db_orders := <[id := row]> (db_orders db);
       db_list_price := db_list_price db;
       db_sequence := if wants_reference v
                      then (next_by_code (db_sequence db) sequence_code).2
                      else db_sequence db |} in
  let q := (default 1 (v_quantity v) <= 0)%Z in
  let t := text_too_long (default None (v_custom_text v)) = true in
  (~ q /\ ~ t /\ execute ord (Create v) db = (Ok (NewId id), db'))
  \/ (q /\ ~ t
      /\ execute ord (Create v) db = (Raise (ValidationError quantity_message), db))
  \/ (~ q /\ t
      /\ execute ord (Create v) db = (Raise (ValidationError custom_text_message), db))
  \/ (q /\ t
      /\ execute ord (Create v) db = (Raise (ValidationError (first_message ord)), db)).
Proof.
  intros id row db' q t. subst id row db' q t. rewrite execute_create.
  destruct (create_cases ord v db)
    as [(H1 & H2 & ->) | [(H1 & H2 & ->) | [(H1 & H2 & ->) | (H1 & H2 & ->)]]];
    cbv beta iota; tauto.
Qed.



Lemma text_too_long_length s :
  text_too_long (Some s) = true <-> 50 < String.length s.
Proof.
  unfold text_too_long. destruct s as [|a s]; simpl.
  - split; [discriminate | lia].
  - rewrite Nat.ltb_lt. reflexivity.
Qed.

(** The row that a creation leaves under the new id, validated or not. *)
Lemma create_row ord v db :
  db_orders (create ord v db).2 !! fresh (dom (db_orders db))
  = Some (created_row (db_list_price db)
            (set_v_name v (reference (db_sequence db) v))).
Proof.
  destruct (create_cases ord v db)
    as [(_ & _ & ->) | [(_ & _ & ->) | [(_ & _ & ->) | (_ & _ & ->)]]];
    apply lookup_insert_eq.
Qed.

(** ** The order reference *)

(** C4.  On creation the reference of the new order is decided by the
    [create] override: without a reference, or with the sentinel "New", it is
    the next value of the generator for the key printing.custom.order, and
    "New" when the generator yields nothing (or an empty string); any other
    reference supplied by the caller is kept.  The creation does not fail
    because the generator yields nothing: it succeeds whenever the quantity
    (1 by default) is positive and the text is not too long. *)
Theorem C4_reference_on_creation :
  forall ord v db,
    let id := fresh (dom (db_orders db)) in
    let next := seq_values (db_sequence db) "printing.custom.order"
                  (seq_calls (db_sequence db)) in
    let created := db_orders (create ord v db).2 !! id in
    (next_by_code (db_sequence db) "printing.custom.order").1 = next
    /\ ((v_name v = None \/ v_name v = Some "New") ->
        name <$> created
        = Some match next with
               | Some (String a s) => String a s
               | _ => "New"
               end)
    /\ (forall n, v_name v = Some n -> n <> "New" -> name <$> created = Some n)
    /\ ((0 < default 1 (v_quantity v))%Z ->
        text_too_long (default None (v_custom_text v)) = false ->
        execute ord (Create v) db = (Ok (NewId id), (create ord v db).2)).
Proof.
  intros ord v db id next created.
  split; [reflexivity|].
  assert (Hname : name <$> created = Some (reference (db_sequence db) v)).
  { subst created id. rewrite create_row. reflexivity. }
  split; [|split].
  - intros Hv. rewrite Hname. f_equal. unfold reference, wants_reference.
    destruct Hv as [-> | ->]; reflexivity.
  - intros n Hn Hne. rewrite Hname. f_equal. unfold reference, wants_reference.
    rewrite Hn. simpl.
    destruct (String.eqb_spec n "New"); [done | reflexivity].
  - intros Hq Ht. rewrite execute_create.
    destruct (create_cases ord v db)
      as [(_ & _ & ->) | [(H1 & _) | [(_ & H2 & _) | (H1 & _)]]];
      [reflexivity | lia | congruence | lia].
Qed.

(** In an empty database without any sequence, a creation without a
    reference succeeds and the order is called "New". *)
Lemma C4_reference_on_creation_witness :
  name <$> db_orders (create name_order (with_links no_vals 7 3)
                        (empty_database sample_prices no_sequence)).2 !! 1%positive
  = Some "New"
  /\ execute name_order (Create (with_links no_vals 7 3))
       (empty_database sample_prices no_sequence)
     = (Ok (NewId 1%positive),
        (create name_order (with_links no_vals 7 3)
           (empty_database sample_prices no_sequence)).2).
Proof.
  pose proof (C4_reference_on_creation name_order (with_links no_vals 7 3)
                (empty_database sample_prices no_sequence)) as H.
  cbv zeta in H. destruct H as (_ & H1 & _ & H2).
  split.
  - apply H1. left. reflexivity.
  - apply H2; [reflexivity | reflexivity].
Defined.




(** ** The two validation rules *)



(** When does a call end with the message of the quantity rule, and when
    with that of the text rule? *)
Lemma write_message ord self v db msg :
  (execute ord (Write self v) db).1 = Raise (ValidationError msg) ->
  (msg = quantity_message /\ exists x, v_quantity v = Some x /\ (x <= 0)%Z)
  \/ (msg = custom_text_message
      /\ exists s, v_custom_text v = Some s /\ text_too_long s = true).
Proof.
  intros H.
  destruct (execute_write_cases ord self v db)
    as [(H1 & H2 & E) | [(H1 & H2 & E) | [(H1 & H2 & E) | (H1 & H2 & E)]]];
    rewrite E in H; simpl in H; [discriminate | | | ];
    injection H as <-.
  - left. split; [done | apply H1].
  - right. split; [done | apply H2].
  - destruct ord; [left; split; [done | apply H1] | right; split; [done | apply H2]].
Qed.

Lemma create_message ord v db msg :
  (execute ord (Create v) db).1 = Raise (ValidationError msg) ->
  (msg = quantity_message /\ (default 1 (v_quantity v) <= 0)%Z)
  \/ (msg = custom_text_message
      /\ text_too_long (default None (v_custom_text v)) = true).
Proof.
  intros H.
  destruct (execute_create_cases ord v db)
    as [(H1 & H2 & E) | [(H1 & H2 & E) | [(H1 & H2 & E) | (H1 & H2 & E)]]];
    rewrite E in H; simpl in H; [discriminate | | | ];
    injection H as <-.
  - by left.
  - by right.
  - destruct ord; [by left | by right].
Qed.











(** ** Consistency of the derived columns *)

Lemma not_key_None v :
  (f_product_id ∉ keys v -> v_product_id v = None)
  /\ (f_custom_text ∉ keys v -> v_custom_text v = None)
  /\ (f_design_file ∉ keys v -> v_design_file v = None)
  /\ (f_size ∉ keys v -> v_size v = None)
  /\ (f_quantity ∉ keys v -> v_quantity v = None)
  /\ (f_name ∉ keys v -> v_name v = None).
Proof.
  repeat split; rewrite elem_of_keys; simpl; apply eq_None_not_Some.
Qed.

Lemma created_row_consistent lp v : consistent_order lp (created_row lp v).
Proof. split; reflexivity. Qed.

Lemma total_row_consistent lp lp' o :
  consistent_order lp o -> consistent_order lp' (total_row lp' o).
Proof. intros [Hfee _]. split; [exact Hfee | reflexivity]. Qed.

(** A written row is consistent again: the dependencies declared with
    [@api.depends] cover what the compute methods read. *)
Lemma written_row_consistent lp v o :
  consistent_order lp o -> consistent_order lp (written_row lp v o).
Proof.
  intros [Hfee Htotal].
  destruct (not_key_None v) as (Kp & Kt & Kd & Ks & Kq & _).
  unfold written_row, recomputed_row.
  destruct (triggers [f_custom_text; f_design_file; f_size]
              (if triggers [f_product_id] (keys v)
               then f_base_price :: keys v else keys v)) eqn:E2.
  - (* the fee is recomputed, hence the total *)
    assert (E3 : triggers [f_base_price; f_customization_fee; f_quantity]
                   (f_customization_fee
                    :: (if triggers [f_product_id] (keys v)
                        then f_base_price :: keys v else keys v)) = true).
    { apply triggers_true. exists f_customization_fee. set_solver. }
    rewrite E3. split; reflexivity.
  - (* the inputs of the fee were not written *)
    assert (Hin : forall d, d ∈ [f_custom_text; f_design_file; f_size] -> d ∉ keys v).
    { intros d Hd Hk. rewrite triggers_false in E2. apply (E2 d Hd).
      destruct (triggers [f_product_id] (keys v)); [by right | done]. }
    assert (Ht : v_custom_text v = None) by (apply Kt, Hin; set_solver).
    assert (Hd : v_design_file v = None) by (apply Kd, Hin; set_solver).
    assert (Hs : v_size v = None) by (apply Ks, Hin; set_solver).
    assert (Hfee' : customization_fee (assign v o)
                    = fee (custom_text (assign v o)) (design_file (assign v o))
                        (size (assign v o))).
    { simpl. rewrite Ht, Hd, Hs. exact Hfee. }
    destruct (triggers [f_base_price; f_customization_fee; f_quantity]
                (if triggers [f_product_id] (keys v)
                 then f_base_price :: keys v else keys v)) eqn:E3.
    + split; [exact Hfee' | reflexivity].
    + (* neither the product nor the quantity was written *)
      rewrite triggers_false in E3.
      destruct (triggers [f_product_id] (keys v)) eqn:E1.
      { exfalso. apply (E3 f_base_price); set_solver. }
      rewrite triggers_false in E1.
      assert (Hp : v_product_id v = None) by (apply Kp, E1; set_solver).
      assert (Hq : v_quantity v = None) by (apply Kq, E3; set_solver).
      split; [exact Hfee'|].
      unfold base_price. simpl. rewrite Hp, Hq. exact Htotal.
Qed.

Lemma write_consistent ord self v db :
  consistent db -> consistent (write ord self v db).2.
Proof.
  intros Hc id o' Ho'.
  destruct (write_keeps_catalog ord self v db) as [-> _].
  rewrite write_orders_lookup in Ho'.
  destruct (decide (id ∈ self)); [|by apply (Hc id)].
  destruct (db_orders db !! id) as [o|] eqn:Ho; [|done].
  injection Ho' as <-. apply written_row_consistent. by apply (Hc id).
Qed.

Lemma create_consistent ord v db :
  consistent db -> consistent (create ord v db).2.
Proof.
  intros Hc id o' Ho'.
  destruct (create_cases ord v db)
    as [(_ & _ & E) | [(_ & _ & E) | [(_ & _ & E) | (_ & _ & E)]]];
    rewrite E in Ho' |- *; cbn [snd db_orders db_list_price] in Ho' |- *;
    (destruct (decide (id = fresh (dom (db_orders db)))) as [->|Hne];
     [ rewrite lookup_insert_eq in Ho'; injection Ho' as <-;
       apply created_row_consistent
     | rewrite lookup_insert_ne in Ho' by done; by apply (Hc id) ]).
Qed.

Lemma price_change_self pid (orders : gmap positive order) id :
  id ∈ elements (dom (filter (fun kv => product_id kv.2 = Some pid) orders))
  <-> exists o, orders !! id = Some o /\ product_id o = Some pid.
Proof.
  rewrite elem_of_elements, elem_of_dom. unfold is_Some.
  split; intros [o Ho]; exists o.
  - by apply map_lookup_filter_Some in Ho.
  - by apply map_lookup_filter_Some.
Qed.

Lemma set_list_price_consistent pid price db :
  consistent db -> consistent (set_list_price pid price db).2.
Proof.
  intros Hc id o' Ho'. unfold set_list_price in *.
  cbn [snd db_orders db_list_price] in *.
  rewrite recompute_lookup in Ho'.
  destruct (decide (id ∈ _)) as [Hin|Hnin].
  - destruct (db_orders db !! id) as [o|] eqn:Ho; [|done].
    injection Ho' as <-.
    apply (total_row_consistent (db_list_price db)). by apply (Hc id).
  - destruct (Hc id o' Ho') as [Hfee Htotal]. split; [exact Hfee|].
    rewrite Htotal. unfold base_price.
    destruct (product_id o') as [p|] eqn:Hp; [|done].
    destruct (decide (p = pid)) as [->|Hne]; [|done].
    exfalso. apply Hnin, price_change_self. eauto.
Qed.

Lemma transaction_consistent {A} (m : M A) db :
  consistent db -> consistent (m db).2 -> consistent (transaction m db).2.
Proof.
  intros Hdb Hm. unfold transaction.
  by destruct (m db) as [[a|e] db'].
Qed.

Lemma reply_with_state {A} (f : A -> reply) (m : M A) db :
  (reply_with f m db).2 = (m db).2.
Proof.
  unfold reply_with, bind, ret. by destruct (m db) as [[a|e] db'].
Qed.

Lemma execute_consistent ord c db :
  consistent db -> consistent (execute ord c db).2.
Proof.
  intros Hc. unfold execute. apply transaction_consistent; [done|].
  destruct c as [v | self v | t self | pid price]; rewrite reply_with_state.
  - by apply create_consistent.
  - by apply write_consistent.
  - intros id o' Ho'. rewrite action_unfold in Ho' |- *.
    cbn [snd db_orders db_list_price set_orders] in *.
    rewrite (for_each_lookup (fun o => set_state o (target t))) in Ho'
      by (intros; apply set_state_idempotent).
    destruct (decide (id ∈ self)); [|by apply (Hc id)].
    destruct (db_orders db !! id) as [o|] eqn:Ho; [|done].
    injection Ho' as <-. exact (Hc id o Ho).
  - by apply set_list_price_consistent.
Qed.

Lemma run_consistent ord calls db :
  consistent db -> consistent (run ord calls db).
Proof.
  revert db. induction calls as [|c calls IH]; intros db Hc; [done|].
  apply IH. by apply execute_consistent.
Qed.

(** C7.  In every database reached from an empty one by creations, writes,
    transitions and price changes of the catalog, each in its transaction,
    every order has a stored customization_fee equal to the fee of its
    current (custom_text, design_file, size) and a stored total_price equal
    to (base_price + customization_fee) * quantity for the current list
    price of its product; the same holds for the state a [write] or a
    [create] leaves before it is committed. *)
Theorem C7_derived_columns_consistent :
  forall ord list_price s calls,
    let db := run ord calls (empty_database list_price s) in
    (forall id o,
        db_orders db !! id = Some o ->
        customization_fee o = fee (custom_text o) (design_file o) (size o)
        /\ total_price o
           = ((base_price (db_list_price db) o + customization_fee o)
              * Py.float_of_int (quantity o))%float)
    /\ (forall self v, consistent (write ord self v db).2)
    /\ (forall v, consistent (create ord v db).2).
Proof.
  intros ord list_price s calls db.
  assert (Hc : consistent db).
  { apply run_consistent. intros id o Ho.
    unfold empty_database in Ho. cbn [db_orders] in Ho.
    by rewrite lookup_empty in Ho. }
  split; [exact Hc|]. split.
  - intros. by apply write_consistent.
  - intros. by apply create_consistent.
Qed.

(** ** All or nothing *)

Lemma written_row_assigned lp v o : same_inputs (assign v o) (written_row lp v o).
Proof. apply recomputed_row_same_inputs. Qed.

Lemma execute_raise ord c db e :
  (execute ord c db).1 = Raise e ->
  (execute ord c db).2 = db
  /\ (e = ValidationError quantity_message \/ e = ValidationError custom_text_message).
Proof.
  intros H. split.
  - unfold execute, transaction in *.
    match goal with
    | H : context [match ?m db with _ => _ end] |- _ =>
        destruct (m db) as [[a|e'] db']
    end; [discriminate | reflexivity].
  - destruct e as [msg].
    destruct c as [v | self v | t self | pid price].
    + apply create_message in H as [(-> & _) | (-> & _)]; [by left | by right].
    + apply write_message in H as [(-> & _) | (-> & _)]; [by left | by right].
    + rewrite execute_action in H. discriminate.
    + discriminate.
Qed.

(** C8.  A call that ends with a validation failure leaves the committed
    database exactly as it was, and the failure is one of the two validation
    messages.  A write that succeeds has assigned every field of its values
    in every row of the recordset (and recomputed the derived columns); a
    creation that succeeds has added exactly the new row.  No call ends
    half-way. *)
Theorem C8_validation_is_atomic :
  forall ord c db,
    (forall e,
        (execute ord c db).1 = Raise e ->
        (execute ord c db).2 = db
        /\ (e = ValidationError "Quantity must be greater than 0!"
            \/ e = ValidationError "Custom text cannot exceed 50 characters!"))
    /\ (forall self v r,
           c = Write self v -> (execute ord c db).1 = Ok r ->
           forall id,
             db_orders (execute ord c db).2 !! id
             = if decide (id ∈ self)
               then written_row (db_list_price db) v <$> db_orders db !! id
               else db_orders db !! id)
    /\ (forall v r,
           c = Create v -> (execute ord c db).1 = Ok r ->
           r = NewId (fresh (dom (db_orders db)))
           /\ db_orders db !! fresh (dom (db_orders db)) = None
           /\ db_orders (execute ord c db).2
              = <[fresh (dom (db_orders db))
                  := created_row (db_list_price db)
                       (set_v_name v (reference (db_sequence db) v))]>
                  (db_orders db))
    /\ (forall list_price v o,
           same_inputs (assign v o) (written_row list_price v o)).
Proof.
  intros ord c db. split; [|split; [|split]].
  - intros e H. by apply execute_raise.
  - intros self v r -> Hok id.
    destruct (execute_write_cases ord self v db)
      as [(_ & _ & E) | [(_ & _ & E) | [(_ & _ & E) | (_ & _ & E)]]];
      rewrite E in Hok |- *; [|discriminate..].
    cbn [snd db_orders set_orders]. apply written_lookup.
  - intros v r -> Hok.
    destruct (execute_create_cases ord v db)
      as [(_ & _ & E) | [(_ & _ & E) | [(_ & _ & E) | (_ & _ & E)]]];
      rewrite E in Hok |- *; [|discriminate..].
    injection Hok as <-.
    split; [done|]. split; [apply fresh_id_is_new | done].
  - intros. apply written_row_assigned.
Qed.

(** A rejected write on the sample order: the method had already assigned
    the quantity, the committed database does not show it. *)
Lemma C8_validation_is_atomic_witness :
  (execute name_order (Write [1%positive] (with_quantity no_vals (-2))) sample_database).2
  = sample_database
  /\ quantity <$> db_orders (write name_order [1%positive]
                               (with_quantity no_vals (-2)) sample_database).2
                  !! 1%positive
     = Some (-2)%Z
  /\ quantity <$> db_orders sample_database !! 1%positive = Some 1%Z.
Proof.
  split; [|split; vm_compute; reflexivity].
  destruct (C8_validation_is_atomic name_order
              (Write [1%positive] (with_quantity no_vals (-2))) sample_database)
    as (H & _).
  apply (H (ValidationError "Quantity must be greater than 0!")).
  vm_compute. reflexivity.
Defined.

(** ** The reference after creation *)

Lemma generated_reference_not_blank s : generated_reference s <> "".
Proof.
  unfold generated_reference, Py.str_or.
  destruct (next_by_code s sequence_code).1 as [[|a r]|]; discriminate.
Qed.

Lemma execute_names ord c db id :
  match c with
  | Create _ => is_Some (db_orders db !! id)
  | Write _ v => v_name v = None
  | Action _ _ | ProductPrice _ _ => True
  end ->
  name <$> db_orders (execute ord c db).2 !! id = name <$> db_orders db !! id.
Proof.
  intros Hc. destruct c as [v | self v | t self | pid price].
  - destruct (execute_create_cases ord v db)
      as [(_ & _ & E) | [(_ & _ & E) | [(_ & _ & E) | (_ & _ & E)]]];
      rewrite E; [|done..].
    cbn [snd db_orders]. rewrite lookup_insert_ne; [done|].
    intros <-. rewrite fresh_id_is_new in Hc. by destruct Hc.
  - destruct (execute_write_cases ord self v db)
      as [(_ & _ & E) | [(_ & _ & E) | [(_ & _ & E) | (_ & _ & E)]]];
      rewrite E; [|done..].
    cbn [snd db_orders set_orders]. rewrite written_lookup.
    destruct (decide (id ∈ self)); [|done].
    destruct (db_orders db !! id) as [o|]; [|done]. simpl. f_equal.
    destruct (written_row_fields (db_list_price db) v o) as (-> & _).
    by rewrite Hc.
  - rewrite execute_action. cbn [snd]. rewrite action_orders_lookup.
    destruct (decide (id ∈ self)); [|done].
    by destruct (db_orders db !! id).
  - unfold execute, transaction, reply_with, bind, ret, set_list_price.
    cbn [snd db_orders]. rewrite recompute_lookup.
    destruct (decide (id ∈ _)); [|done].
    by destruct (db_orders db !! id).
Qed.

(** C9 (as amended).  The reference is fixed by the creation: without a
    reference from the caller, or with the sentinel "New", it is the value
    generated ("New" at worst) and is not blank; a reference supplied by the
    caller is kept as it is.  Afterwards the five transitions, a price change
    of the catalog, a later creation and every write whose values do not name
    the reference leave the reference of every order unchanged. *)
Theorem C9_reference_after_creation :
  (forall ord v db,
      (v_name v = None \/ v_name v = Some "New") ->
      exists r,
        name <$> db_orders (execute ord (Create v) db).2 !! fresh (dom (db_orders db))
        = (fun _ => r) <$> db_orders (execute ord (Create v) db).2
                             !! fresh (dom (db_orders db))
        /\ r = generated_reference (db_sequence db) /\ r <> "")
  /\ (forall ord v db n,
         v_name v = Some n -> n <> "New" ->
         name <$> db_orders (execute ord (Create v) db).2 !! fresh (dom (db_orders db))
         = (fun _ => n) <$> db_orders (execute ord (Create v) db).2
                              !! fresh (dom (db_orders db)))
  /\ (forall ord c db id,
         match c with
         | Create _ => is_Some (db_orders db !! id)
         | Write _ v => v_name v = None
         | Action _ _ | ProductPrice _ _ => True
         end ->
         name <$> db_orders (execute ord c db).2 !! id = name <$> db_orders db !! id).
Proof.
  assert (Hcreated : forall ord v db,
             name <$> db_orders (execute ord (Create v) db).2 !! fresh (dom (db_orders db))
             = (fun _ => reference (db_sequence db) v)
               <$> db_orders (execute ord (Create v) db).2 !! fresh (dom (db_orders db))).
  { intros ord v db.
    destruct (execute_create_cases ord v db)
      as [(_ & _ & E) | [(_ & _ & E) | [(_ & _ & E) | (_ & _ & E)]]];
      rewrite E; cbn [snd db_orders].
    - by rewrite lookup_insert_eq.
    - by rewrite fresh_id_is_new.
    - by rewrite fresh_id_is_new.
    - by rewrite fresh_id_is_new. }
  split; [|split].
  - intros ord v db Hv. exists (generated_reference (db_sequence db)).
    split; [|split; [done | apply generated_reference_not_blank]].
    rewrite Hcreated. unfold reference, wants_reference.
    by destruct Hv as [-> | ->].
  - intros ord v db n Hn Hne. rewrite Hcreated.
    unfold reference, wants_reference. rewrite Hn. simpl.
    by destruct (String.eqb_spec n "New").
  - apply execute_names.
Qed.

(** Confirming the sample order keeps its reference "PRINT/0". *)
Lemma C9_reference_after_creation_witness :
  name <$> db_orders (execute name_order (Action confirm [1%positive]) sample_database).2
             !! 1%positive
  = Some "PRINT/0".
Proof.
  destruct C9_reference_after_creation as (_ & _ & H).
  rewrite (H name_order (Action confirm [1%positive]) sample_database 1%positive I).
  vm_compute. reflexivity.
Defined.

(** C9 as stated fails: a reference supplied by the caller is kept, also a
    blank one, and a later write that names the reference changes it. *)
Lemma C9_counterexample :
  name <$> db_orders
             (execute declaration_order
                (Create (set_v_name (with_links no_vals 7 3) "MY-REF"))
                (empty_database sample_prices print_sequence)).2 !! 1%positive
  = Some "MY-REF"
  /\ name <$> db_orders
                (execute declaration_order
                   (Create (set_v_name (with_links no_vals 7 3) ""))
                   (empty_database sample_prices print_sequence)).2 !! 1%positive
     = Some ""
  /\ name <$> db_orders sample_database !! 1%positive = Some "PRINT/0"
  /\ name <$> db_orders
                (execute declaration_order
                   (Write [1%positive] (set_v_name no_vals "CHANGED"))
                   sample_database).2 !! 1%positive
     = Some "CHANGED".
Proof. repeat split; vm_compute; reflexivity. Qed.

(** * Further properties of the class *)

(** ** The fee and the size table *)

(** X1.  Whatever the text, the file and the size, the customization fee is
    one of 0, 5, 10, 15, 20, 25 and 30: it is never negative and never above
    30.0. *)
Theorem X1_fee_values :
  forall (t : option string) (d : option (list byte)) (s : option string),
    fee t d s ∈ [0.0; 5.0; 10.0; 15.0; 20.0; 25.0; 30.0]%float
    /\ (0.0 <=? fee t d s)%float = true
    /\ (fee t d s <=? 30.0)%float = true.
Proof.
  intros t d s. destruct (fee_is_sum t d s) as [-> _].
  destruct (spec_size_surcharge_cases s) as [-> | [-> | [-> | ->]]];
    destruct t as [[|a t]|]; destruct d as [[|b d]|];
    (split; [apply list_elem_of_In; vm_compute; auto 10 | split; reflexivity]).
Qed.

(** X2.  The keys of the [size] selection are exactly the keys of the
    [size_fees] table, so no selectable size falls back on the default of
    [size_fees.get]; the default size and the default colour are keys of
    their selections. *)
Theorem X2_size_selection_matches_fees :
  (forall s : string, s ∈ size_selection.*1 <-> is_Some (size_fees !! s))
  /\ (forall s : string,
         s ∈ size_selection.*1 ->
         Some (Py.dict_get size_fees (Some s) 0.0%float) = size_fees !! s)
  /\ (exists s, size defaults = Some s /\ s ∈ size_selection.*1)
  /\ (exists c, custom_color defaults = Some c /\ c ∈ custom_color_selection.*1).
Proof.
  assert (Hkeys : forall s : string,
             s ∈ size_selection.*1 <-> is_Some (size_fees !! s)).
  { intros s. split.
    - intros H. apply list_elem_of_In in H. simpl in H.
      destruct H as [<- | [<- | [<- | [<- | []]]]]; vm_compute; eauto.
    - intros [x Hx]. unfold size_fees in Hx.
      apply list_elem_of_In. simpl.
      destruct (decide (s = "small")) as [->|H1]; [auto|].
      rewrite lookup_insert_ne in Hx by congruence.
      destruct (decide (s = "medium")) as [->|H2]; [auto|].
      rewrite lookup_insert_ne in Hx by congruence.
      destruct (decide (s = "large")) as [->|H3]; [auto|].
      rewrite lookup_insert_ne in Hx by congruence.
      destruct (decide (s = "xlarge")) as [->|H4]; [auto 6|].
      rewrite lookup_singleton_ne in Hx by congruence. discriminate. }
  split; [exact Hkeys|]. split; [|split].
  - intros s Hs. apply Hkeys in Hs as [x Hx]. simpl. by rewrite Hx.
  - exists "medium". split; [reflexivity|].
    apply list_elem_of_In. simpl. auto.
  - exists "white". split; [reflexivity|].
    apply list_elem_of_In. simpl. auto.
Qed.

(** ** The compute methods as loops *)

Lemma fee_row_same_inputs o : same_inputs o (fee_row o).
Proof. repeat split. Qed.

Lemma total_row_same_inputs lp o : same_inputs o (total_row lp o).
Proof. repeat split. Qed.

(** X3.  Running [_compute_customization_fee] and then
    [_compute_total_price] on a recordset repairs its rows: whatever the two
    derived columns held before, every row of the recordset ends with a fee
    and a total that agree with its inputs, its other columns are as before,
    and the rows outside the recordset are untouched. *)
Theorem X3_recomputation_repairs :
  forall (list_price : positive -> float) (self : list positive)
         (orders : gmap positive order) (id : positive) (o : order),
    orders !! id = Some o ->
    let orders' :=
      _compute_total_price list_price self (_compute_customization_fee self orders) in
    (id ∈ self ->
     exists o', orders' !! id = Some o'
                /\ consistent_order list_price o' /\ same_inputs o o')
    /\ (id ∉ self -> orders' !! id = Some o).
Proof.
  intros list_price self orders id o Ho orders'. subst orders'.
  rewrite compute_total_price_lookup, compute_customization_fee_lookup, Ho.
  destruct (decide (id ∈ self)) as [Hin|Hnin]; split; intros H; try done.
  exists (total_row list_price (fee_row o)).
  split; [reflexivity|]. split; [split; reflexivity | repeat split].
Qed.

(** A row whose stored fee (0.0) and total (999.0) are stale is repaired:
    afterwards they are 5.0 and (20.0 + 5.0) * 1. *)
Lemma X3_recomputation_repairs_witness :
  exists o',
    _compute_total_price sample_prices [2%positive]
      (_compute_customization_fee [2%positive]
         {[ 2%positive := set_total_price (assign (with_links no_vals 7 3) defaults)
                            999.0%float ]})
    !! 2%positive = Some o'
    /\ consistent_order sample_prices o'
    /\ same_inputs
         (set_total_price (assign (with_links no_vals 7 3) defaults) 999.0%float) o'.
Proof.
  destruct (X3_recomputation_repairs sample_prices [2%positive]
              {[ 2%positive := set_total_price (assign (with_links no_vals 7 3) defaults)
                                 999.0%float ]}
              2%positive
              (set_total_price (assign (with_links no_vals 7 3) defaults) 999.0%float))
    as [H _].
  - apply lookup_singleton_eq.
  - apply H. left.
Defined.

Lemma for_each_same_ids (f : order -> order) self self'
    (orders : gmap positive order) :
  (forall o, f (f o) = f o) ->
  (forall id, id ∈ self <-> id ∈ self') ->
  for_each f self orders = for_each f self' orders.
Proof.
  intros Hf Hids. apply map_eq. intros id.
  rewrite !(for_each_lookup f Hf).
  destruct (decide (id ∈ self)) as [H|H]; destruct (decide (id ∈ self')) as [H'|H'];
    try done; exfalso; [apply H', Hids, H | apply H, Hids, H'].
Qed.

Lemma for_each_twice (f : order -> order) self (orders : gmap positive order) :
  (forall o, f (f o) = f o) ->
  for_each f self (for_each f self orders) = for_each f self orders.
Proof.
  intros Hf. apply map_eq. intros id.
  rewrite !(for_each_lookup f Hf).
  destruct (decide (id ∈ self)); [|done].
  destruct (orders !! id); simpl; [by rewrite Hf | done].
Qed.

(** X4.  The result of a compute method depends only on which ids are in
    the recordset, not on their order or on repetitions, and running the
    method a second time changes nothing. *)
Theorem X4_compute_loops_order_free :
  forall (list_price : positive -> float) (self self' : list positive)
         (orders : gmap positive order),
    (forall id, id ∈ self <-> id ∈ self') ->
    _compute_customization_fee self orders = _compute_customization_fee self' orders
    /\ _compute_total_price list_price self orders
       = _compute_total_price list_price self' orders
    /\ _compute_customization_fee self (_compute_customization_fee self orders)
       = _compute_customization_fee self orders
    /\ _compute_total_price list_price self (_compute_total_price list_price self orders)
       = _compute_total_price list_price self orders.
Proof.
  intros list_price self self' orders Hids.
  split; [|split; [|split]].
  - by apply (for_each_same_ids fee_row).
  - by apply (for_each_same_ids (total_row list_price)).
  - by apply (for_each_twice fee_row).
  - by apply (for_each_twice (total_row list_price)).
Qed.

(** The recordsets [1; 2; 1] and [2; 1] give the same table. *)
Lemma X4_compute_loops_order_free_witness :
  _compute_customization_fee [1; 2; 1]%positive (db_orders sample_database)
  = _compute_customization_fee [2; 1]%positive (db_orders sample_database).
Proof.
  apply (X4_compute_loops_order_free sample_prices).
  intros id. rewrite !elem_of_cons, !elem_of_nil. tauto.
Defined.

(** ** The constraint methods as loops *)

Lemma check_each_app cond msg self self' (orders : gmap positive order) :
  check_each cond msg (self ++ self') orders = Ok tt
  <-> check_each cond msg self orders = Ok tt
      /\ check_each cond msg self' orders = Ok tt.
Proof.
  rewrite !check_each_ok. split.
  - intros H. split; intros id o Hin; apply H; apply elem_of_app; auto.
  - intros [H1 H2] id o [Hin|Hin]%elem_of_app; [by apply H1 | by apply H2].
Qed.

Lemma check_each_same_ids cond msg self self' (orders : gmap positive order) :
  (forall id, id ∈ self <-> id ∈ self') ->
  check_each cond msg self orders = check_each cond msg self' orders.
Proof.
  intros Hids.
  destruct (check_each_cases cond msg self orders) as [H|H];
    destruct (check_each_cases cond msg self' orders) as [H'|H'];
    rewrite H, H'; try done; exfalso.
  - apply check_each_raise in H' as (id & o & Hin & Ho & Hc).
    rewrite check_each_ok in H. apply Hids in Hin.
    specialize (H id o Hin Ho). congruence.
  - apply check_each_raise in H as (id & o & Hin & Ho & Hc).
    rewrite check_each_ok in H'. apply Hids in Hin.
    specialize (H' id o Hin Ho). congruence.
Qed.

(** X5.  On recordsets of existing orders a constraint method passes on
    the concatenation of two recordsets exactly when it passes on both, it
    passes on the empty recordset, and what it returns depends only on which
    orders are in the recordset, not on their order or on repetitions. *)
Theorem X5_checks_as_loops :
  forall (self self' : list positive) (orders : gmap positive order),
    existing_rows (self ++ self') orders ->
    _check_quantity [] orders = Ok tt
    /\ _check_custom_text_length [] orders = Ok tt
    /\ (_check_quantity (self ++ self') orders = Ok tt
        <-> _check_quantity self orders = Ok tt
            /\ _check_quantity self' orders = Ok tt)
    /\ (_check_custom_text_length (self ++ self') orders = Ok tt
        <-> _check_custom_text_length self orders = Ok tt
            /\ _check_custom_text_length self' orders = Ok tt)
    /\ ((forall id, id ∈ self <-> id ∈ self') ->
        _check_quantity self orders = _check_quantity self' orders
        /\ _check_custom_text_length self orders
           = _check_custom_text_length self' orders).
Proof.
  intros self self' orders _.
  split; [reflexivity|]. split; [reflexivity|].
  split; [apply check_each_app | split; [apply check_each_app|]].
  intros Hids. split; by apply check_each_same_ids.
Qed.

(** With two orders stored, the second one with quantity 0 (put there
    without validation), the recordsets [1; 2; 1] and [2; 1] both fail the
    quantity check, and [1] ++ [2] fails it because [2] does. *)
Lemma X5_checks_as_loops_witness :
  _check_quantity [1; 2; 1]%positive
    (<[2%positive := assign (with_quantity no_vals 0) defaults]>
       (db_orders sample_database))
  = _check_quantity [2; 1]%positive
      (<[2%positive := assign (with_quantity no_vals 0) defaults]>
         (db_orders sample_database))
  /\ _check_quantity [2; 1]%positive
       (<[2%positive := assign (with_quantity no_vals 0) defaults]>
          (db_orders sample_database))
     = Raise (ValidationError "Quantity must be greater than 0!").
Proof.
  split; [|vm_compute; reflexivity].
  destruct (X5_checks_as_loops [1; 2; 1]%positive [2; 1]%positive
              (<[2%positive := assign (with_quantity no_vals 0) defaults]>
                 (db_orders sample_database))) as (_ & _ & _ & _ & H).
  - intros id Hin. apply list_elem_of_In in Hin. simpl in Hin.
    destruct Hin as [<- | [<- | [<- | [<- | [<- | []]]]]]; vm_compute; eauto.
  - apply H. intros id. rewrite !elem_of_cons, !elem_of_nil. tauto.
Defined.

(** ** Validity of the stored orders *)

Lemma written_row_valid lp v o :
  valid_order o ->
  (forall x, v_quantity v = Some x -> (0 < x)%Z) ->
  (forall x, v_custom_text v = Some x -> text_too_long x = false) ->
  valid_order (written_row lp v o).
Proof.
  intros [Hq Ht] Hvq Hvt.
  destruct (written_row_fields lp v o) as (_ & Eq & Et & _).
  unfold valid_order. rewrite Eq, Et. split.
  - destruct (v_quantity v) as [x|]; simpl; [by apply Hvq | done].
  - destruct (v_custom_text v) as [x|]; simpl; [by apply Hvt | done].
Qed.

Lemma execute_valid ord c db : valid db -> valid (execute ord c db).2.
Proof.
  intros Hv. destruct c as [v | self v | t self | pid price].
  - destruct (execute_create_cases ord v db)
      as [(Hq & Ht & E) | [(_ & _ & E) | [(_ & _ & E) | (_ & _ & E)]]];
      rewrite E; [|done..].
    intros id o. cbn [snd db_orders].
    destruct (decide (id = fresh (dom (db_orders db)))) as [->|Hne].
    + rewrite lookup_insert_eq. intros [= <-]. split.
      * change (0 < default 1 (v_quantity v))%Z. lia.
      * change (text_too_long (default None (v_custom_text v)) = false).
        by destruct (text_too_long (default None (v_custom_text v))).
    + rewrite lookup_insert_ne by done. apply Hv.
  - destruct (execute_write_cases ord self v db)
      as [(Hq & Ht & E) | [(_ & _ & E) | [(_ & _ & E) | (_ & _ & E)]]];
      rewrite E; [|done..].
    intros id o'. cbn [snd db_orders set_orders]. rewrite written_lookup.
    destruct (decide (id ∈ self)) as [Hin|_]; [|apply Hv].
    destruct (db_orders db !! id) as [o|] eqn:Ho; [|done].
    intros [= <-].
    assert (Hrow : has_row self (db_orders db)).
    { exists id. split; [done|]. rewrite Ho. eauto. }
    apply written_row_valid; [by apply (Hv id) | |].
    + intros x Hx. destruct (decide (0 < x)%Z); [done|].
      exfalso. apply Hq. split; [done|]. exists x. split; [done | lia].
    + intros x Hx. destruct (text_too_long x) eqn:Hl; [|done].
      exfalso. apply Ht. split; [done|]. by exists x.
  - rewrite execute_action. intros id o'. cbn [snd].
    rewrite action_orders_lookup.
    destruct (decide (id ∈ self)); [|apply Hv].
    destruct (db_orders db !! id) as [o|] eqn:Ho; [|done].
    intros [= <-]. exact (Hv id o Ho).
  - intros id o'.
    unfold execute, transaction, reply_with, bind, ret, set_list_price.
    cbn [snd db_orders]. rewrite recompute_lookup.
    destruct (decide (id ∈ _)); [|apply Hv].
    destruct (db_orders db !! id) as [o|] eqn:Ho; [|done].
    intros [= <-]. exact (Hv id o Ho).
Qed.

(** X6.  The two constraint methods and the default quantity keep the
    orders valid: in every database reached from an empty one by creations,
    writes, transitions and price changes, every order has a quantity > 0
    and a text of at most 50 characters. *)
Theorem X6_orders_stay_valid :
  forall ord list_price s calls id o,
    db_orders (run ord calls (empty_database list_price s)) !! id = Some o ->
    (0 < quantity o)%Z
    /\ (forall t, custom_text o = Some t -> String.length t <= 50).
Proof.
  intros ord list_price s calls id o Ho.
  assert (Hv : valid (run ord calls (empty_database list_price s))).
  { clear. unfold run.
    assert (H0 : valid (empty_database list_price s)).
    { intros id o Ho. unfold empty_database in Ho. cbn [db_orders] in Ho.
      by rewrite lookup_empty in Ho. }
    revert H0. generalize (empty_database list_price s).
    induction calls as [|c calls IH]; intros db Hdb; [done|].
    apply IH. by apply execute_valid. }
  destruct (Hv id o Ho) as [Hq Ht]. split; [done|].
  intros t Hc. rewrite Hc in Ht.
  destruct (Nat.le_gt_cases (String.length t) 50) as [|Hgt]; [done|].
  apply text_too_long_length in Hgt. congruence.
Qed.

(** After a creation, a rejected write of quantity 0 and a write of
    quantity 4, the order 1 has quantity 4. *)
Lemma X6_orders_stay_valid_witness :
  exists o,
    db_orders
      (run name_order
         [Create (with_links no_vals 7 3);
          Write [1%positive] (with_quantity no_vals 0);
          Write [1%positive] (with_quantity no_vals 4)]
         (empty_database sample_prices print_sequence)) !! 1%positive = Some o
    /\ quantity o = 4%Z
    /\ (0 < quantity o)%Z.
Proof.
  eexists. split; [vm_compute; reflexivity|]. split; [reflexivity|].
  eapply (X6_orders_stay_valid name_order sample_prices print_sequence
            [Create (with_links no_vals 7 3);
             Write [1%positive] (with_quantity no_vals 0);
             Write [1%positive] (with_quantity no_vals 4)] 1%positive).
  vm_compute. reflexivity.
Defined.

(** ** Creation and the sequence *)

Lemma wants_reference_cases v :
  (wants_reference v = true <-> v_name v = None \/ v_name v = Some "New")
  /\ (wants_reference v = false <-> exists n, v_name v = Some n /\ n <> "New").
Proof.
  unfold wants_reference. destruct (v_name v) as [n|]; simpl.
  - destruct (String.eqb_spec n "New") as [->|Hne].
    + split; [split; auto|]. split; [discriminate|].
      intros (n & [= <-] & Hn). done.
    + split.
      * split; [discriminate|]. intros [|[= ->]]; done.
      * split; [eauto | done].
  - split; [split; auto|]. split; [discriminate|].
    intros (n & ? & _). discriminate.
Qed.

Lemma create_sequence ord v db :
  db_sequence (create ord v db).2
  = if wants_reference v
    then (next_by_code (db_sequence db) sequence_code).2
    else db_sequence db.
Proof.
  destruct (create_cases ord v db)
    as [(_ & _ & ->) | [(_ & _ & ->) | [(_ & _ & ->) | (_ & _ & ->)]]];
    reflexivity.
Qed.

(** X7.  [create] asks the generator for a value exactly when the caller
    gave no reference or gave "New", and then exactly once; when the caller
    supplies another reference the generator is left as it was.  A write and
    the five transitions never touch the generator. *)
Theorem X7_sequence_use :
  forall ord v db,
    ((v_name v = None \/ v_name v = Some "New") ->
     seq_calls (db_sequence (create ord v db).2) = S (seq_calls (db_sequence db))
     /\ seq_values (db_sequence (create ord v db).2) = seq_values (db_sequence db))
    /\ (forall n, v_name v = Some n -> n <> "New" ->
        db_sequence (create ord v db).2 = db_sequence db)
    /\ (forall self, db_sequence (write ord self v db).2 = db_sequence db)
    /\ (forall t self, db_sequence (action ord t self db).2 = db_sequence db).
Proof.
  intros ord v db. destruct (wants_reference_cases v) as [Ht Hf].
  split; [|split; [|split]].
  - intros Hv. rewrite create_sequence, (proj2 Ht Hv). split; reflexivity.
  - intros n Hn Hne. rewrite create_sequence.
    assert (E : wants_reference v = false) by (apply Hf; eauto).
    by rewrite E.
  - intros self. apply write_keeps_catalog.
  - intros t self. by rewrite action_unfold.
Qed.

(** A creation with the reference "MY-REF" leaves the generator at its
    first value; a creation without reference moves it to the second. *)
Lemma X7_sequence_use_witness :
  db_sequence (create name_order (set_v_name (with_links no_vals 7 3) "MY-REF")
                 (empty_database sample_prices print_sequence)).2
  = print_sequence
  /\ seq_calls (db_sequence (create name_order (with_links no_vals 7 3)
                               (empty_database sample_prices print_sequence)).2)
     = 1.
Proof.
  split.
  - destruct (X7_sequence_use name_order (set_v_name (with_links no_vals 7 3) "MY-REF")
                (empty_database sample_prices print_sequence)) as (_ & H & _).
    apply (H "MY-REF"); [reflexivity | discriminate].
  - destruct (X7_sequence_use name_order (with_links no_vals 7 3)
                (empty_database sample_prices print_sequence)) as (H & _).
    apply H. left. reflexivity.
Defined.

(** X8.  Two creations in a row without a reference, both passing the
    validation, give two different orders whose references are the values
    the generator yields at two consecutive calls (each replaced by "New" if
    it is missing or empty). *)
Theorem X8_consecutive_references :
  forall ord v1 v2 db,
    v_name v1 = None -> v_name v2 = None ->
    (0 < default 1 (v_quantity v1))%Z ->
    text_too_long (default None (v_custom_text v1)) = false ->
    (0 < default 1 (v_quantity v2))%Z ->
    text_too_long (default None (v_custom_text v2)) = false ->
    let n := seq_calls (db_sequence db) in
    let value := seq_values (db_sequence db) "printing.custom.order" in
    exists id1 id2 db1 db2,
      execute ord (Create v1) db = (Ok (NewId id1), db1)
      /\ execute ord (Create v2) db1 = (Ok (NewId id2), db2)
      /\ id1 <> id2
      /\ name <$> db_orders db2 !! id1 = Some (Py.str_or (value n) "New")
      /\ name <$> db_orders db2 !! id2 = Some (Py.str_or (value (S n)) "New").
Proof.
  intros ord v1 v2 db Hn1 Hn2 Hq1 Ht1 Hq2 Ht2 n value.
  assert (W1 : wants_reference v1 = true)
    by (apply wants_reference_cases; auto).
  assert (W2 : wants_reference v2 = true)
    by (apply wants_reference_cases; auto).
  destruct (execute_create_cases ord v1 db)
    as [(_ & _ & E1) | [(H & _) | [(_ & H & _) | (H & _)]]];
    [| lia | congruence | lia].
  rewrite W1 in E1.
  match type of E1 with _ = (_, ?d) => set (db1 := d) in * end.
  destruct (execute_create_cases ord v2 db1)
    as [(_ & _ & E2) | [(H & _) | [(_ & H & _) | (H & _)]]];
    [| lia | congruence | lia].
  rewrite W2 in E2.
  match type of E2 with _ = (_, ?d) => set (db2 := d) in * end.
  exists (fresh (dom (db_orders db))), (fresh (dom (db_orders db1))), db1, db2.
  split; [exact E1|]. split; [exact E2|].
  assert (Hne : fresh (dom (db_orders db)) <> fresh (dom (db_orders db1))).
  { intros Heq. pose proof (fresh_id_is_new db1) as Hnew.
    rewrite <- Heq in Hnew. subst db1. cbn [db_orders] in Hnew.
    by rewrite lookup_insert_eq in Hnew. }
  split; [exact Hne|]. split.
  - subst db2. cbn [db_orders]. rewrite lookup_insert_ne by done.
    subst db1. cbn [db_orders]. rewrite lookup_insert_eq.
    unfold reference. by rewrite W1.
  - subst db2. cbn [db_orders]. rewrite lookup_insert_eq.
    unfold reference. by rewrite W2.
Qed.

(** With the sample generator the first two orders are PRINT/0 and
    PRINT/1. *)
Lemma X8_consecutive_references_witness :
  exists id1 id2 db1 db2,
    execute name_order (Create (with_links no_vals 7 3))
      (empty_database sample_prices print_sequence) = (Ok (NewId id1), db1)
    /\ execute name_order (Create (with_links no_vals 8 3)) db1 = (Ok (NewId id2), db2)
    /\ id1 <> id2
    /\ name <$> db_orders db2 !! id1 = Some "PRINT/0"
    /\ name <$> db_orders db2 !! id2 = Some "PRINT/1".
Proof.
  exact (X8_consecutive_references name_order (with_links no_vals 7 3)
           (with_links no_vals 8 3) (empty_database sample_prices print_sequence)
           eq_refl eq_refl eq_refl eq_refl eq_refl eq_refl).
Defined.

(** X9.  An order created without size, text, file and quantity takes the
    defaults of the field declarations: medium size, quantity 1, state
    draft unless given; its fee is therefore 5.0, not 0.0, and its total is
    (base_price + 5.0) * 1. *)
Theorem X9_creation_defaults :
  forall ord v db,
    v_size v = None -> v_custom_text v = None -> v_design_file v = None ->
    v_quantity v = None ->
    exists id db' o,
      execute ord (Create v) db = (Ok (NewId id), db')
      /\ db_orders db' !! id = Some o
      /\ size o = Some "medium" /\ quantity o = 1%Z
      /\ state o = default draft (v_state v)
      /\ customization_fee o = 5.0%float
      /\ total_price o
         = ((base_price (db_list_price db) o + 5.0) * Py.float_of_int 1)%float.
Proof.
  intros ord v db Hs Ht Hd Hq.
  destruct (execute_create_cases ord v db)
    as [(_ & _ & E) | [(H & _) | [(_ & H & _) | (H & _)]]].
  - eexists _, _, _. split; [exact E|]. cbn [db_orders].
    split; [apply lookup_insert_eq|].
    unfold created_row, total_row, fee_row, base_price. simpl.
    rewrite Hs, Ht, Hd, Hq. simpl. repeat split.
  - rewrite Hq in H. simpl in H. lia.
  - rewrite Ht in H. discriminate.
  - rewrite Hq in H. simpl in H. lia.
Qed.

(** The sample order: fee 5.0 and total 25.0. *)
Lemma X9_creation_defaults_witness :
  exists id db' o,
    execute declaration_order (Create (with_links no_vals 7 3))
      (empty_database sample_prices print_sequence) = (Ok (NewId id), db')
    /\ db_orders db' !! id = Some o
    /\ size o = Some "medium" /\ quantity o = 1%Z
    /\ state o = draft
    /\ customization_fee o = 5.0%float
    /\ total_price o
       = ((base_price sample_prices o + 5.0) * Py.float_of_int 1)%float.
Proof.
  exact (X9_creation_defaults declaration_order (with_links no_vals 7 3)
           (empty_database sample_prices print_sequence)
           eq_refl eq_refl eq_refl eq_refl).
Defined.

(** ** How transitions compose *)

Lemma set_orders_twice db (m1 m2 : gmap positive order) :
  set_orders (set_orders db m1) m2 = set_orders db m2.
Proof. reflexivity. Qed.

(** X10.  On one recordset the last transition wins: running a transition
    after another gives the database that the second one alone gives, so a
    transition repeated is the transition done once and no earlier
    transition leaves a trace. *)
Theorem X10_last_transition_wins :
  forall ord t1 t2 self db,
    (action ord t2 self (action ord t1 self db).2).2 = (action ord t2 self db).2
    /\ (action ord t1 self (action ord t1 self db).2).2 = (action ord t1 self db).2.
Proof.
  assert (H : forall ord t1 t2 self db,
             (action ord t2 self (action ord t1 self db).2).2
             = (action ord t2 self db).2).
  { intros ord t1 t2 self db. rewrite !action_unfold. cbn [snd].
    unfold set_orders. cbn [db_orders db_list_price db_sequence]. f_equal.
    apply map_eq. intros id.
    rewrite !(for_each_lookup (fun o => set_state o (target t2)))
      by (intros; apply set_state_idempotent).
    rewrite (for_each_lookup (fun o => set_state o (target t1)))
      by (intros; apply set_state_idempotent).
    destruct (decide (id ∈ self)); [|done].
    by destruct (db_orders db !! id). }
  intros. split; apply H.
Qed.

(** X11.  Transitions on recordsets without a common id commute. *)
Theorem X11_disjoint_transitions_commute :
  forall ord t1 t2 self1 self2 db,
    (forall id, id ∈ self1 -> id ∉ self2) ->
    (action ord t2 self2 (action ord t1 self1 db).2).2
    = (action ord t1 self1 (action ord t2 self2 db).2).2.
Proof.
  intros ord t1 t2 self1 self2 db Hdisj. rewrite !action_unfold. cbn [snd].
  unfold set_orders. cbn [db_orders db_list_price db_sequence]. f_equal.
  apply map_eq. intros id.
  rewrite (for_each_lookup (fun o => set_state o (target t2)))
    by (intros; apply set_state_idempotent).
  rewrite !(for_each_lookup (fun o => set_state o (target t1)))
    by (intros; apply set_state_idempotent).
  rewrite (for_each_lookup (fun o => set_state o (target t2)))
    by (intros; apply set_state_idempotent).
  destruct (decide (id ∈ self1)) as [H1|H1];
    destruct (decide (id ∈ self2)) as [H2|H2];
    [by destruct (Hdisj id H1) | by destruct (db_orders db !! id)..].
Qed.

(** Confirming order 1 and cancelling order 2, in either order. *)
Lemma X11_disjoint_transitions_commute_witness :
  (action name_order do_cancel [2%positive]
     (action name_order confirm [1%positive]
        (run name_order [Create (with_links no_vals 8 3)] sample_database)).2).2
  = (action name_order confirm [1%positive]
       (action name_order do_cancel [2%positive]
          (run name_order [Create (with_links no_vals 8 3)] sample_database)).2).2.
Proof.
  apply X11_disjoint_transitions_commute.
  intros id H1 H2.
  apply list_elem_of_singleton in H1. apply list_elem_of_singleton in H2.
  congruence.
Defined.

(** ** Writes *)

Lemma set_orders_same db : set_orders db (db_orders db) = db.
Proof. by destruct db. Qed.

Lemma assign_no_vals o : assign no_vals o = o.
Proof. by destruct o. Qed.

(** X12.  A write on the empty recordset succeeds and changes nothing,
    whatever the values, even a quantity of 0: both checks loop over the
    recordset.  A write of no value at all succeeds on every recordset and
    changes nothing either. *)
Theorem X12_writes_without_effect :
  forall ord db,
    (forall v, execute ord (Write [] v) db = (Ok (Done true), db))
    /\ (forall self, execute ord (Write self no_vals) db = (Ok (Done true), db)).
Proof.
  intros ord db. split.
  - intros v.
    destruct (execute_write_cases ord [] v db)
      as [(_ & _ & E) | [(H & _) | [(_ & H & _) | (H & _)]]].
    + rewrite E. f_equal.
      transitivity (set_orders db (db_orders db)); [|apply set_orders_same].
      f_equal.
      apply map_eq. intros id. rewrite written_lookup.
      destruct (decide (id ∈ [])) as [Hin|_]; [|done].
      by apply elem_of_nil in Hin.
    + destruct H as ((id & Hin & _) & _). by apply elem_of_nil in Hin.
    + destruct H as ((id & Hin & _) & _). by apply elem_of_nil in Hin.
    + destruct H as ((id & Hin & _) & _). by apply elem_of_nil in Hin.
  - intros self.
    destruct (execute_write_cases ord self no_vals db)
      as [(_ & _ & E) | [(H & _) | [(_ & H & _) | (H & _)]]].
    + rewrite E. f_equal.
      transitivity (set_orders db (db_orders db)); [|apply set_orders_same].
      f_equal.
      apply map_eq. intros id. rewrite written_lookup.
      destruct (decide (id ∈ self)); [|done].
      destruct (db_orders db !! id) as [o|]; [|done]. simpl. f_equal.
      unfold written_row. rewrite assign_no_vals. reflexivity.
    + destruct H as (_ & x & Hx & _). discriminate.
    + destruct H as (_ & x & Hx & _). discriminate.
    + destruct H as (_ & x & Hx & _). discriminate.
Qed.

(** A row written without any of the fields the derived columns depend on
    keeps both derived columns. *)
Lemma written_row_keeps_price :
  forall list_price v o,
    v_custom_text v = None -> v_design_file v = None -> v_size v = None ->
    v_product_id v = None -> v_quantity v = None ->
    customization_fee (written_row list_price v o) = customization_fee o
    /\ total_price (written_row list_price v o) = total_price o
    /\ custom_color (written_row list_price v o)
       = default (custom_color o) (v_custom_color v)
    /\ notes (written_row list_price v o) = default (notes o) (v_notes v).
Proof.
  intros list_price v o Ht Hd Hs Hp Hq.
  assert (Hk : forall f,
             f ∈ [f_custom_text; f_design_file; f_size; f_product_id; f_quantity;
                  f_base_price; f_customization_fee] ->
             f ∉ keys v).
  { intros f Hf. rewrite elem_of_keys.
    apply list_elem_of_In in Hf. simpl in Hf.
    destruct Hf as [<- | [<- | [<- | [<- | [<- | [<- | [<- | []]]]]]]]; simpl;
      rewrite ?Ht, ?Hd, ?Hs, ?Hp, ?Hq;
      first [ by intros [? ?] | by intros [] | done ]. }
  unfold written_row, recomputed_row.
  assert (E1 : triggers [f_product_id] (keys v) = false).
  { apply triggers_false. intros d Hd'. apply Hk.
    apply list_elem_of_singleton in Hd' as ->.
    apply list_elem_of_In. simpl. auto. }
  rewrite E1.
  assert (E2 : triggers [f_custom_text; f_design_file; f_size] (keys v) = false).
  { apply triggers_false. intros d Hd'. apply Hk.
    apply list_elem_of_In in Hd'. apply list_elem_of_In. simpl in *. tauto. }
  rewrite E2.
  assert (E3 : triggers [f_base_price; f_customization_fee; f_quantity] (keys v) = false).
  { apply triggers_false. intros d Hd'. apply Hk.
    apply list_elem_of_In in Hd'. apply list_elem_of_In. simpl in *. tauto. }
  rewrite E3. repeat split.
Qed.

(** X13.  A write that names none of custom_text, design_file, size,
    product_id and quantity always succeeds and leaves the stored fee and
    total of every order as they were: the colour, the colour code, the
    notes, the customer, the file name, the reference and the state have no
    influence on the price. *)
Theorem X13_price_ignores_other_fields :
  forall ord self v db id,
    v_custom_text v = None -> v_design_file v = None -> v_size v = None ->
    v_product_id v = None -> v_quantity v = None ->
    execute ord (Write self v) db = (Ok (Done true), (write ord self v db).2)
    /\ customization_fee <$> db_orders (write ord self v db).2 !! id
       = customization_fee <$> db_orders db !! id
    /\ total_price <$> db_orders (write ord self v db).2 !! id
       = total_price <$> db_orders db !! id.
Proof.
  intros ord self v db id Ht Hd Hs Hp Hq. split.
  - rewrite execute_write.
    destruct (write_cases ord self v db)
      as [(_ & _ & ->) | [(H & _) | [(_ & H & _) | (H & _)]]];
      [reflexivity | exfalso..].
    + destruct H as (_ & x & Hx & _). congruence.
    + destruct H as (_ & x & Hx & _). congruence.
    + destruct H as (_ & x & Hx & _). congruence.
  - rewrite write_orders_lookup.
    destruct (decide (id ∈ self)); [|done].
    destruct (db_orders db !! id) as [o|]; [|done]. simpl.
    destruct (written_row_keeps_price (db_list_price db) v o Ht Hd Hs Hp Hq)
      as (-> & -> & _).
    done.
Qed.

(** Painting the sample order red succeeds and leaves its fee 5.0 and its
    total 25.0. *)
Lemma X13_price_ignores_other_fields_witness :
  customization_fee
  <$> db_orders
        (write name_order [1%positive]
           {| v_name := None; v_customer_id := None; v_product_id := None;
              v_custom_text := None; v_custom_color := Some (Some "red");
              v_custom_color_code := None; v_size := None; v_design_file := None;
              v_design_filename := None; v_quantity := None; v_state := None;
              v_notes := None |} sample_database).2 !! 1%positive
  = Some 5.0%float
  /\ total_price
     <$> db_orders
           (write name_order [1%positive]
              {| v_name := None; v_customer_id := None; v_product_id := None;
                 v_custom_text := None; v_custom_color := Some (Some "red");
                 v_custom_color_code := None; v_size := None; v_design_file := None;
                 v_design_filename := None; v_quantity := None; v_state := None;
                 v_notes := None |} sample_database).2 !! 1%positive
     = Some 25.0%float.
Proof.
  destruct (X13_price_ignores_other_fields name_order [1%positive]
              {| v_name := None; v_customer_id := None; v_product_id := None;
                 v_custom_text := None; v_custom_color := Some (Some "red");
                 v_custom_color_code := None; v_size := None; v_design_file := None;
                 v_design_filename := None; v_quantity := None; v_state := None;
                 v_notes := None |} sample_database 1%positive
              eq_refl eq_refl eq_refl eq_refl eq_refl) as (_ & -> & ->).
  split; vm_compute; reflexivity.
Defined.

(** A row written with one of the fields a derived column depends on. *)
Lemma written_row_recomputed :
  forall list_price v o,
    (is_Some (v_custom_text v) \/ is_Some (v_design_file v) \/ is_Some (v_size v) ->
     consistent_order list_price (written_row list_price v o))
    /\ (forall p,
           v_product_id v = Some (Some p) ->
           product_id (written_row list_price v o) = Some p
           /\ total_price (written_row list_price v o)
              = ((list_price p + customization_fee (written_row list_price v o))
                 * Py.float_of_int (quantity (written_row list_price v o)))%float).
Proof.
  intros list_price v o. split.
  - intros Hv.
    assert (Hk : exists f, f ∈ [f_custom_text; f_design_file; f_size] /\ f ∈ keys v).
    { destruct Hv as [H | [H | H]];
        [exists f_custom_text | exists f_design_file | exists f_size];
        (split; [apply list_elem_of_In; simpl; auto | by apply elem_of_keys]). }
    destruct Hk as (f & Hf & Hfk).
    unfold written_row, recomputed_row.
    destruct (triggers [f_product_id] (keys v));
      match goal with
      | |- context [if triggers ?a ?b then fee_row _ else _] =>
          assert (E : triggers a b = true)
            by (apply triggers_true; exists f;
                split; [exact Hf | rewrite ?elem_of_cons; auto]);
          rewrite E
      end;
      match goal with
      | |- context [if triggers ?a ?b then total_row _ _ else _] =>
          assert (E' : triggers a b = true)
            by (apply triggers_true; exists f_customization_fee;
                split; rewrite ?elem_of_cons; auto 6);
          rewrite E'
      end;
      split; reflexivity.
  - intros p Hp.
    assert (Hk : f_product_id ∈ keys v).
    { apply elem_of_keys. simpl. rewrite Hp. eauto. }
    unfold written_row, recomputed_row.
    assert (E1 : triggers [f_product_id] (keys v) = true).
    { apply triggers_true. exists f_product_id.
      split; [apply list_elem_of_In; simpl; auto | done]. }
    rewrite E1.
    match goal with
    | |- context [if triggers ?a ?b then fee_row _ else _] => destruct (triggers a b)
    end;
      match goal with
      | |- context [if triggers ?a ?b then total_row _ _ else _] =>
          assert (E' : triggers a b = true)
            by (apply triggers_true; exists f_base_price;
                split; rewrite ?elem_of_cons; auto 6);
          rewrite E'
      end;
      unfold total_row, base_price; simpl; rewrite Hp; split; reflexivity.
Qed.

(** X14.  A write that names one of the fields a derived column depends on
    recomputes it before it returns: after a write of the text, the file or
    the size the stored fee of every order of the recordset is the fee of its
    inputs and its total is (base_price + fee) * quantity, whatever the two
    columns held before; after a write of the product the stored total is
    priced with the list price of the new product.  (Quantities that
    [float()] accepts.) *)
Theorem X14_writes_of_dependencies_recompute :
  forall ord self v db id o',
    id ∈ self ->
    db_orders (write ord self v db).2 !! id = Some o' ->
    Py.float_overflows (quantity o') = false ->
    (is_Some (v_custom_text v) \/ is_Some (v_design_file v) \/ is_Some (v_size v) ->
     customization_fee o' = fee (custom_text o') (design_file o') (size o')
     /\ total_price o'
        = ((base_price (db_list_price db) o' + customization_fee o')
           * Py.float_of_int (quantity o'))%float)
    /\ (forall p,
           v_product_id v = Some (Some p) ->
           product_id o' = Some p
           /\ total_price o'
              = ((db_list_price db p + customization_fee o')
                 * Py.float_of_int (quantity o'))%float).
Proof.
  intros ord self v db id o' Hin Ho' _.
  rewrite write_orders_lookup in Ho'.
  destruct (decide (id ∈ self)); [|done].
  destruct (db_orders db !! id) as [o|]; [|done].
  injection Ho' as <-.
  destruct (written_row_recomputed (db_list_price db) v o) as [H1 H2].
  split; [exact H1 | exact H2].
Qed.

(** The sample order moved from product 3 (20.0) to product 5 (30.0): the
    total becomes (30.0 + 5.0) * 1. *)
Lemma X14_writes_of_dependencies_recompute_witness :
  exists o',
    db_orders
      (write name_order [1%positive]
         {| v_name := None; v_customer_id := None;
            v_product_id := Some (Some 5%positive);
            v_custom_text := None; v_custom_color := None;
            v_custom_color_code := None; v_size := None; v_design_file := None;
            v_design_filename := None; v_quantity := None; v_state := None;
            v_notes := None |}
         (execute name_order (Create (with_links no_vals 7 3))
            (empty_database (fun p => if Pos.eqb p 5 then 30.0%float else 20.0%float)
               print_sequence)).2).2 !! 1%positive = Some o'
    /\ product_id o' = Some 5%positive
    /\ total_price o' = 35.0%float.
Proof.
  eexists. split; [vm_compute; reflexivity|].
  edestruct (X14_writes_of_dependencies_recompute name_order [1%positive]
               {| v_name := None; v_customer_id := None;
                  v_product_id := Some (Some 5%positive);
                  v_custom_text := None; v_custom_color := None;
                  v_custom_color_code := None; v_size := None; v_design_file := None;
                  v_design_filename := None; v_quantity := None; v_state := None;
                  v_notes := None |}
               (execute name_order (Create (with_links no_vals 7 3))
                  (empty_database (fun p => if Pos.eqb p 5 then 30.0%float else 20.0%float)
                     print_sequence)).2 1%positive) as [_ H].
  - left.
  - vm_compute. reflexivity.
  - vm_compute. reflexivity.
  - destruct (H 5%positive eq_refl) as [Hp Ht].
    split; [exact Hp|]. rewrite Ht. vm_compute. reflexivity.
Defined.

(** ** The order of the checks *)

(** X15.  The order in which the platform runs the two constraint methods
    never decides whether a call is accepted nor what is committed: both
    orders leave the same database and succeed on the same calls with the
    same reply; they differ only in the message of a call that breaks both
    rules. *)
Theorem X15_check_order_only_changes_message :
  forall c db,
    (execute declaration_order c db).2 = (execute name_order c db).2
    /\ (forall r, (execute declaration_order c db).1 = Ok r
                  <-> (execute name_order c db).1 = Ok r)
    /\ (forall e1 e2,
           (execute declaration_order c db).1 = Raise e1 ->
           (execute name_order c db).1 = Raise e2 ->
           e1 = e2
           \/ (e1 = ValidationError "Quantity must be greater than 0!"
               /\ e2 = ValidationError "Custom text cannot exceed 50 characters!")).
Proof.
  intros c db. destruct c as [v | self v | t self | pid price].
  - destruct (execute_create_cases declaration_order v db)
      as [(Q1 & T1 & E1) | [(Q1 & T1 & E1) | [(Q1 & T1 & E1) | (Q1 & T1 & E1)]]];
      destruct (execute_create_cases name_order v db)
        as [(Q2 & T2 & E2) | [(Q2 & T2 & E2) | [(Q2 & T2 & E2) | (Q2 & T2 & E2)]]];
      try (exfalso; tauto); rewrite E1, E2; cbn [fst snd first_message];
      (split; [reflexivity|]; split;
       [ intros r; split; intros H; first [exact H | discriminate H]
       | intros e1 e2 [= <-] [= <-]; first [by left | by right] ]).
  - destruct (execute_write_cases declaration_order self v db)
      as [(Q1 & T1 & E1) | [(Q1 & T1 & E1) | [(Q1 & T1 & E1) | (Q1 & T1 & E1)]]];
      destruct (execute_write_cases name_order self v db)
        as [(Q2 & T2 & E2) | [(Q2 & T2 & E2) | [(Q2 & T2 & E2) | (Q2 & T2 & E2)]]];
      try (exfalso; tauto); rewrite E1, E2; cbn [fst snd first_message];
      (split; [reflexivity|]; split;
       [ intros r; split; intros H; first [exact H | discriminate H]
       | intros e1 e2 [= <-] [= <-]; first [by left | by right] ]).
  - rewrite !execute_action, !action_unfold. cbn [fst snd].
    split; [reflexivity|]. split; [done|]. intros e1 e2 H. discriminate H.
  - split; [reflexivity|]. split; [done|]. intros e1 e2 H. discriminate H.
Qed.
